(** * OCR Studio: the [process_pdf] pipeline of [ocr_python.py]

    A shallow embedding of the worker method [ModernOCRApp.process_pdf]
    (src/ocr_python.py, lines 368-458) together with the few library
    routines it relies on.  The worker drives two external tools
    ([pdftoppm], then [tesseract] once per page image), appends the
    recognised text to one output file, reports progress and log messages
    to the Tk widgets, and polls a cancellation flag owned by the GUI
    thread.

    Everything outside the worker (the two tools, the file system, the
    GUI thread that may set the flag) is gathered in a [World] record of
    oracles; the worker itself is a program in a small state-and-control
    monad whose state carries the trace of effects, the content of the
    output file and the content of the temporary directory.

    Conventions of the model:
    - [subprocess.run], [open] and [shutil.rmtree] may raise, as the
      environment decides; [tempfile.mkdtemp], [os.listdir] on the
      directory just created, [write] and the Tk calls do not;
    - a failing [shutil.rmtree] leaves the directory as it was;
    - the progress value [20 + 70 * i / total_pages], a Python float,
      is the exact rational number;
    - Python strings are strings of 8-bit characters, compared as
      [sorted] compares them, character by character;
    - a log line is its level and message, without the wall-clock
      prefix;
    - the shared flag [processing_cancelled] is a function of the
      number of effects the worker has performed, so that it can be set
      at any point of the run; each reading is recorded in the trace. *)

From Stdlib Require Import List String Ascii ZArith QArith Bool Arith Lia.
From Stdlib Require Import Permutation Sorted DecimalString.
Import ListNotations.

Close Scope Q_scope.
Local Open Scope nat_scope.
Local Open Scope string_scope.
Local Open Scope list_scope.

(** ** Python library routines used by the worker *)

Module Py.

(** [str(n)] for a non-negative integer. *)
Definition str (n : nat) : string :=
  NilZero.string_of_uint (Nat.to_uint n).

(** [s.endswith(suffix)]. *)
Definition endswith (s suffix : string) : bool :=
  let n := String.length s in
  let m := String.length suffix in
  (m <=? n)%nat && String.eqb (substring (n - m) m s) suffix.

(** [s.startswith(prefix)]. *)
Definition startswith (s pre : string) : bool := String.prefix pre s.

(** [os.path.join(a, b)] on a POSIX system (posixpath.join with two
    arguments): an absolute [b] discards [a]; otherwise the two are
    joined with exactly one separator. *)
Definition path_join (a b : string) : string :=
  if startswith b "/" then b
  else if String.eqb a "" || endswith a "/" then a ++ b
  else a ++ "/" ++ b.

(** [sorted(l)] on a list of strings.  Python orders [str] values
    lexicographically by code point, which is [String.leb]; the order
    is total and antisymmetric, so the result does not depend on the
    sorting algorithm. *)
Fixpoint insert (x : string) (l : list string) : list string :=
  match l with
  | [] => [x]
  | y :: l' => if String.leb x y then x :: l else y :: insert x l'
  end.

Fixpoint sorted (l : list string) : list string :=
  match l with
  | [] => []
  | x :: l' => insert x (sorted l')
  end.

End Py.

(** ** Data of the worker *)

(** What [subprocess.run(cmd, capture_output=True, text=True)] returns. *)
Record CompletedProcess := mkCompleted {
  returncode : Z;
  stdout : string;
  stderr : string
}.

(** [subprocess.run] either returns a [CompletedProcess] (whatever the
    exit status) or raises because the tool could not be launched. *)
Inductive RunResult :=
| Launched (r : CompletedProcess)
| LaunchFailure (e : string).

(** The [level] argument of [log_message]. *)
Inductive Level := INFO | SUCCESS | WARNING | ERROR.

(** Callbacks handed to [self.root.after(0, ...)]. *)
Inductive Callback :=
| ShowInfo (title message : string)
| ShowError (title message : string)
| ResetUI.

(** The two places where [self.processing_cancelled] is read. *)
Inductive PollPoint :=
| AfterConversion          (* line 391 *)
| PageTop (i : nat).       (* line 408, iteration [i] of [enumerate] *)

(** Every effect of the worker, in program order. *)
Inductive Event :=
| Mkdtemp (dir : string)                        (* tempfile.mkdtemp *)
| Log (level : Level) (message : string)        (* self.log_message *)
| Status (text : string)                        (* self.status_var.set *)
| Progress (percent : Q)                        (* self.progress_var.set *)
| ProgressLabel (text : string)                 (* self.progress_label.config *)
| Ran (cmd : list string) (res : RunResult)     (* subprocess.run *)
| Polled (at_ : PollPoint) (flag : bool)        (* self.processing_cancelled *)
| Listdir (dir : string)                        (* os.listdir *)
| Opened (path : string) (ok : bool)            (* open(path, 'w') *)
| Wrote (text : string)                         (* output_file.write *)
| Closed                                        (* leaving the with block *)
| Rmtree (dir : string) (ok : bool)             (* shutil.rmtree *)
| ViewButtonEnabled                             (* self.view_button.config *)
| After (cb : Callback).                        (* self.root.after(0, cb) *)

(** The inputs read from the Tk variables at the start of the job. *)
Record Job := mkJob {
  pdf_path : string;
  output_path : string;
  language : string;
  cleanup_images : bool
}.

(** The environment of one run of the worker. *)
Record World := mkWorld {
  (** the directory name returned by [tempfile.mkdtemp(prefix="ocr_")] *)
  temp_name : string;
  (** outcome of running an external command *)
  run : list string -> RunResult;
  (** names of the entries [pdftoppm] leaves in the temporary
      directory, in the order [os.listdir] reports them *)
  raster_output : list string;
  (** [None] when [open(output_path, 'w')] succeeds, the exception text
      otherwise *)
  open_error : option string;
  (** [None] when [shutil.rmtree] succeeds, the exception text otherwise *)
  rmtree_error : option string;
  (** value of the shared flag [self.processing_cancelled], as a
      function of the number of effects the worker has performed so
      far; the GUI thread may set it at any moment *)
  processing_cancelled : nat -> bool
}.

(** The part of the machine the worker acts on. *)
Record State := mkState {
  (** trace of effects so far, oldest first *)
  events : list Event;
  (** content of the file at [output_path]; [None] when there is none *)
  output_file : option string;
  (** entries of the temporary directory; [None] when it does not exist *)
  work_area : option (list string)
}.

(** How a block of statements is left. *)
Inductive Ctl (A : Type) :=
| Normal (a : A)       (* falls through *)
| Returned             (* a [return] statement was executed *)
| Raised (e : string). (* an exception propagates; [e] is [str(e)] *)

Arguments Normal {A} a.
Arguments Returned {A}.
Arguments Raised {A} e.

(** The terminal states of the job. *)
Inductive Outcome :=
| Completed
| Cancelled
| FatalError (e : string).

(** ** The worker monad *)

Definition M (A : Type) : Type := State -> Ctl A * State.

Definition ret {A} (a : A) : M A := fun s => (Normal a, s).

Definition bind {A B} (m : M A) (k : A -> M B) : M B :=
  fun s =>
    match m s with
    | (Normal a, s') => k a s'
    | (Returned, s') => (Returned, s')
    | (Raised e, s') => (Raised e, s')
    end.

Declare Scope worker_scope.
Delimit Scope worker_scope with worker.

Notation "x <- m ;; k" := (bind m (fun x => k))
  (at level 100, m at next level, right associativity) : worker_scope.
Notation "m ;; k" := (bind m (fun _ => k))
  (at level 100, right associativity) : worker_scope.

Definition raise {A} (e : string) : M A := fun s => (Raised e, s).

Definition early_return {A} : M A := fun s => (Returned, s).

Definition record (e : Event) (s : State) : State :=
  mkState (events s ++ [e]) (output_file s) (work_area s).

Definition emit (e : Event) : M unit := fun s => (Normal tt, record e s).

Definition when (b : bool) (m : M unit) : M unit :=
  if b then m else ret tt.

(** ** Effects of the worker *)

Definition nl : string := String "010"%char EmptyString.

Section Worker.

Variable w : World.
Variable job : Job.

Local Open Scope worker_scope.

(** [self.log_message(message, level)]: one line appended to the log
    widget (the wall-clock prefix is left out). *)
Definition log_message (message : string) (level : Level) : M unit :=
  emit (Log level message).

(** [tempfile.mkdtemp(prefix="ocr_")]: a fresh, empty directory. *)
Definition mkdtemp : M string :=
  fun s =>
    (Normal (temp_name w),
     mkState (events s ++ [Mkdtemp (temp_name w)]) (output_file s) (Some [])).

(** What an external command leaves behind: [pdftoppm] fills the
    temporary directory, [tesseract ... stdout] writes no file. *)
Definition tool_effect (cmd : list string) (res : RunResult)
           (s : State) : State :=
  match cmd, res with
  | tool :: _, Launched _ =>
      if String.eqb tool "pdftoppm"
      then mkState (events s) (output_file s)
                   (option_map (fun _ => raster_output w) (work_area s))
      else s
  | _, _ => s
  end.

(** [subprocess.run(cmd, capture_output=True, text=True)]: a non-zero
    exit status is returned, not raised. *)
Definition subprocess_run (cmd : list string) : M CompletedProcess :=
  fun s =>
    let res := run w cmd in
    let s' := tool_effect cmd res (record (Ran cmd res) s) in
    match res with
    | Launched r => (Normal r, s')
    | LaunchFailure e => (Raised e, s')
    end.

(** Reading [self.processing_cancelled]. *)
Definition poll (p : PollPoint) : M bool :=
  fun s =>
    let b := processing_cancelled w (List.length (events s)) in
    (Normal b, record (Polled p b) s).

(** [os.listdir(dir)] on the temporary directory. *)
Definition os_listdir (dir : string) : M (list string) :=
  fun s =>
    match work_area s with
    | Some names => (Normal names, record (Listdir dir) s)
    | None => (Raised "No such file or directory", record (Listdir dir) s)
    end.

(** [output_file.write(text)]. *)
Definition write (text : string) : M unit :=
  fun s =>
    (Normal tt,
     mkState (events s ++ [Wrote text])
             (option_map (fun c => c ++ text)%string (output_file s))
             (work_area s)).

(** [with open(path, 'w', encoding='utf-8') as output_file: body].
    Opening truncates the file; the file is closed however the body
    is left. *)
Definition with_open (path : string) (body : M unit) : M unit :=
  fun s =>
    match open_error w with
    | Some e => (Raised e, record (Opened path false) s)
    | None =>
        let s1 := mkState (events s ++ [Opened path true]) (Some "")
                          (work_area s) in
        let (c, s2) := body s1 in
        (c, record Closed s2)
    end.

(** [shutil.rmtree(dir)]. *)
Definition shutil_rmtree (dir : string) : M unit :=
  fun s =>
    match rmtree_error w with
    | None =>
        (Normal tt,
         mkState (events s ++ [Rmtree dir true]) (output_file s) None)
    | Some e => (Raised e, record (Rmtree dir false) s)
    end.

(** ** The per-page loop (lines 407-427) *)

Definition tesseract_cmd (image_path : string) : list string :=
  ["tesseract"; image_path; "stdout"; "-l"; language job].

Definition page_header (page_num : nat) : string :=
  (nl ++ nl ++ "--- Page " ++ Py.str page_num ++ " ---" ++ nl)%string.

(** The three texts shown for a page. *)
Definition processing_label (page_num total_pages : nat) : string :=
  ("Processing page " ++ Py.str page_num ++ " of "
   ++ Py.str total_pages)%string.

Definition processed_message (page_num : nat) : string :=
  ("Processed page " ++ Py.str page_num)%string.

Definition failed_message (page_num : nat) (err : string) : string :=
  ("OCR failed for page " ++ Py.str page_num ++ ": " ++ err)%string.

Definition page_progress (i total_pages : nat) : Q :=
  (20 + (70 * inject_Z (Z.of_nat i)) / inject_Z (Z.of_nat total_pages))%Q.

(** [for i, image_file in enumerate(image_files): ...], started at
    index [i] on the remaining files. *)
Fixpoint page_loop (temp_dir : string) (total_pages : nat)
         (i : nat) (image_files : list string) : M unit :=
  match image_files with
  | [] => ret tt
  | image_file :: rest =>
      cancelled <- poll (PageTop i) ;;
      when cancelled early_return ;;
      let page_num := i + 1 in
      let progress := page_progress i total_pages in
      emit (Progress progress) ;;
      emit (ProgressLabel (processing_label page_num total_pages)) ;;
      let image_path := Py.path_join temp_dir image_file in
      result <- subprocess_run (tesseract_cmd image_path) ;;
      (if (returncode result =? 0)%Z
       then
         write (page_header page_num) ;;
         write (stdout result) ;;
         log_message (processed_message page_num) INFO
       else
         log_message (failed_message page_num (stderr result)) WARNING) ;;
      page_loop temp_dir total_pages (S i) rest
  end.

(** ** The body of the [try] block (lines 371-449) *)

Definition pdftoppm_cmd (temp_dir : string) : list string :=
  ["pdftoppm"; pdf_path job; (temp_dir ++ "/page")%string; "-png"].

Definition is_png (f : string) : bool := Py.endswith f ".png".

Definition try_body : M unit :=
  temp_dir <- mkdtemp ;;
  log_message "Starting OCR processing..." INFO ;;
  emit (Status "Converting PDF to images...") ;;
  (* Step 1: convert PDF to images *)
  emit (Progress 10%Q) ;;
  emit (ProgressLabel "Converting PDF to images...") ;;
  result <- subprocess_run (pdftoppm_cmd temp_dir) ;;
  when (negb (returncode result =? 0)%Z)
       (raise ("PDF conversion failed: " ++ stderr result)%string) ;;
  cancelled <- poll AfterConversion ;;
  when cancelled early_return ;;
  (* count pages *)
  names <- os_listdir temp_dir ;;
  let image_files := Py.sorted (filter is_png names) in
  let total_pages := List.length image_files in
  when (total_pages =? 0)%nat (raise "No images generated from PDF") ;;
  log_message ("Generated " ++ Py.str total_pages
               ++ " images from PDF")%string SUCCESS ;;
  (* Step 2: OCR processing *)
  emit (Status "Extracting text using OCR...") ;;
  with_open (output_path job)
            (page_loop temp_dir total_pages 0 image_files) ;;
  (* Step 3: cleanup *)
  when (cleanup_images job)
       (emit (Progress 95%Q) ;;
        emit (ProgressLabel "Cleaning up temporary files...") ;;
        shutil_rmtree temp_dir ;;
        log_message "Temporary files cleaned up" INFO) ;;
  (* completion *)
  emit (Progress 100%Q) ;;
  emit (ProgressLabel "Processing complete!") ;;
  log_message "OCR processing completed successfully!" SUCCESS ;;
  log_message ("Output saved to: " ++ output_path job)%string SUCCESS ;;
  emit (Status "Processing completed successfully") ;;
  emit ViewButtonEnabled ;;
  emit (After (ShowInfo "Success"
                 ("OCR processing completed successfully!" ++ nl ++ nl
                  ++ "Text extracted and saved to:" ++ nl
                  ++ output_path job)%string)).

(** The [except Exception as e] clause (lines 451-454). *)
Definition except_handler (e : string) : M unit :=
  log_message ("Error: " ++ e)%string ERROR ;;
  emit (Status "Error occurred during processing") ;;
  emit (After (ShowError "Error"
                 ("An error occurred:" ++ nl ++ e)%string)).

(** The [finally] clause (lines 456-458). *)
Definition finally_clause : M unit := emit (After ResetUI).

(** ** [process_pdf]: try / except / finally *)
Definition process_pdf (s : State) : Outcome * State :=
  let (c, s1) := try_body s in
  let (o, s2) :=
    match c with
    | Normal _ => (Completed, s1)
    | Returned => (Cancelled, s1)
    | Raised e => (FatalError e, snd (except_handler e s1))
    end in
  (o, snd (finally_clause s2)).

End Worker.

(** The machine when the worker thread starts: nothing done yet, some
    (or no) file at the output path, no temporary directory. *)
Definition initial (old_output : option string) : State :=
  mkState [] old_output None.

Definition run_job (w : World) (job : Job) (old_output : option string)
  : Outcome * State :=
  process_pdf w job (initial old_output).

(** ** Reading a trace *)

Definition is_ocr (cmd : list string) : bool :=
  match cmd with
  | tool :: _ => String.eqb tool "tesseract"
  | [] => false
  end.

Definition is_raster (cmd : list string) : bool :=
  match cmd with
  | tool :: _ => String.eqb tool "pdftoppm"
  | [] => false
  end.

(** The OCR invocations of a trace, with what each returned. *)
Fixpoint ocr_runs (tr : list Event) : list (list string * RunResult) :=
  match tr with
  | [] => []
  | Ran cmd res :: tr' =>
      if is_ocr cmd then (cmd, res) :: ocr_runs tr' else ocr_runs tr'
  | _ :: tr' => ocr_runs tr'
  end.

(** The rasterizer invocations of a trace. *)
Fixpoint raster_runs (tr : list Event) : list (list string * RunResult) :=
  match tr with
  | [] => []
  | Ran cmd res :: tr' =>
      if is_raster cmd then (cmd, res) :: raster_runs tr' else raster_runs tr'
  | _ :: tr' => raster_runs tr'
  end.

(** The values given to the progress bar. *)
Fixpoint progress_values (tr : list Event) : list Q :=
  match tr with
  | [] => []
  | Progress p :: tr' => p :: progress_values tr'
  | _ :: tr' => progress_values tr'
  end.

(** The readings of the cancellation flag. *)
Fixpoint polls (tr : list Event) : list (PollPoint * bool) :=
  match tr with
  | [] => []
  | Polled p b :: tr' => (p, b) :: polls tr'
  | _ :: tr' => polls tr'
  end.

(** The texts written to the output file. *)
Fixpoint written (tr : list Event) : list string :=
  match tr with
  | [] => []
  | Wrote t :: tr' => t :: written tr'
  | _ :: tr' => written tr'
  end.

(** The log lines of a given level. *)
Fixpoint logged (lvl : Level) (tr : list Event) : list string :=
  match tr with
  | [] => []
  | Log l m :: tr' =>
      match lvl, l with
      | INFO, INFO | SUCCESS, SUCCESS | WARNING, WARNING | ERROR, ERROR =>
          m :: logged lvl tr'
      | _, _ => logged lvl tr'
      end
  | _ :: tr' => logged lvl tr'
  end.

(** A recognised page: the tool was launched and exited with status 0. *)
Definition recognized (res : RunResult) : bool :=
  match res with
  | Launched r => (returncode r =? 0)%Z
  | LaunchFailure _ => false
  end.

(** ** What one page contributes *)

Section Pages.

Variable w : World.
Variable job : Job.

(** The page images of the job: the sorted [.png] entries of the
    temporary directory (line 395). *)
Definition image_files : list string :=
  Py.sorted (filter is_png (raster_output w)).

Definition total_pages : nat := List.length image_files.

Definition ocr_cmd (image_file : string) : list string :=
  tesseract_cmd job (Py.path_join (temp_name w) image_file).

(** The block a page adds to the output file. *)
Definition page_block (page_num : nat) (r : CompletedProcess) : string :=
  if (returncode r =? 0)%Z
  then (page_header page_num ++ stdout r)%string
  else "".

(** The effects of a page processed to its end; [i] is its 0-based
    position in [image_files]. *)
Definition page_events (i : nat) (f : string) (r : CompletedProcess)
  : list Event :=
  [ Polled (PageTop i) false;
    Progress (page_progress i total_pages);
    ProgressLabel (processing_label (i + 1) total_pages);
    Ran (ocr_cmd f) (Launched r) ]
  ++ (if (returncode r =? 0)%Z
      then [ Wrote (page_header (i + 1)); Wrote (stdout r);
             Log INFO (processed_message (i + 1)) ]
      else [ Log WARNING (failed_message (i + 1) (stderr r)) ]).

Fixpoint pages_events (i : nat) (frs : list (string * CompletedProcess))
  : list Event :=
  match frs with
  | [] => []
  | (f, r) :: frs' => page_events i f r ++ pages_events (S i) frs'
  end.

Fixpoint pages_text (i : nat) (rs : list CompletedProcess) : string :=
  match rs with
  | [] => ""
  | r :: rs' => (page_block (i + 1) r ++ pages_text (S i) rs')%string
  end.

(** How the loop is left when it stands before the file at position
    [i]: no file remains, the flag is seen set, or the OCR tool cannot
    be launched. *)
Inductive LoopEnd (i : nat)
  : Ctl unit -> list string -> list Event -> Prop :=
| EndDone : LoopEnd i (Normal tt) [] []
| EndCancelled f rest :
    LoopEnd i Returned (f :: rest) [Polled (PageTop i) true]
| EndLaunch f rest e :
    run w (ocr_cmd f) = LaunchFailure e ->
    LoopEnd i (Raised e) (f :: rest)
      [ Polled (PageTop i) false;
        Progress (page_progress i total_pages);
        ProgressLabel (processing_label (i + 1) total_pages);
        Ran (ocr_cmd f) (LaunchFailure e) ].

(** The pages in [frs] were processed to their end with these results. *)
Definition launched (frs : list (string * CompletedProcess)) : Prop :=
  Forall (fun fr => run w (ocr_cmd (fst fr)) = Launched (snd fr)) frs.

End Pages.

(** ** The possible runs of the worker

    A run of [process_pdf] either stops before the per-page loop or
    enters it; in both cases what the environment answers fixes the outcome, the whole trace,
    the output file and the temporary directory. *)

Section Shapes.

Variable w : World.
Variable job : Job.

Definition prologue (res : RunResult) : list Event :=
  [ Mkdtemp (temp_name w);
    Log INFO "Starting OCR processing...";
    Status "Converting PDF to images...";
    Progress 10%Q;
    ProgressLabel "Converting PDF to images...";
    Ran (pdftoppm_cmd job (temp_name w)) res ].

Definition counted : list Event :=
  [ Polled AfterConversion false; Listdir (temp_name w) ].

Definition announce : list Event :=
  [ Log SUCCESS ("Generated " ++ Py.str (total_pages w)
                 ++ " images from PDF")%string;
    Status "Extracting text using OCR..." ].

Definition cleaned : list Event :=
  [ Progress 95%Q;
    ProgressLabel "Cleaning up temporary files...";
    Rmtree (temp_name w) true;
    Log INFO "Temporary files cleaned up" ].

Definition cleanup_failed : list Event :=
  [ Progress 95%Q;
    ProgressLabel "Cleaning up temporary files...";
    Rmtree (temp_name w) false ].

Definition completion : list Event :=
  [ Progress 100%Q;
    ProgressLabel "Processing complete!";
    Log SUCCESS "OCR processing completed successfully!";
    Log SUCCESS ("Output saved to: " ++ output_path job)%string;
    Status "Processing completed successfully";
    ViewButtonEnabled;
    After (ShowInfo "Success"
             ("OCR processing completed successfully!" ++ nl ++ nl
              ++ "Text extracted and saved to:" ++ nl
              ++ output_path job)%string) ].

Definition on_error (e : string) : list Event :=
  [ Log ERROR ("Error: " ++ e)%string;
    Status "Error occurred during processing";
    After (ShowError "Error" ("An error occurred:" ++ nl ++ e)%string) ].

Definition epilogue : list Event := [ After ResetUI ].

(** What follows the [with] block, by the way the loop was left:
    outcome, events, and the temporary directory at the end. *)
Inductive AfterLoop
  : Ctl unit -> Outcome -> list Event -> option (list string) -> Prop :=
| AfterReturned :
    AfterLoop Returned Cancelled [] (Some (raster_output w))
| AfterRaised e :
    AfterLoop (Raised e) (FatalError e) (on_error e)
              (Some (raster_output w))
| AfterKept :
    cleanup_images job = false ->
    AfterLoop (Normal tt) Completed completion (Some (raster_output w))
| AfterCleaned :
    cleanup_images job = true -> rmtree_error w = None ->
    AfterLoop (Normal tt) Completed (cleaned ++ completion) None
| AfterCleanupFailed e :
    cleanup_images job = true -> rmtree_error w = Some e ->
    AfterLoop (Normal tt) (FatalError e) (cleanup_failed ++ on_error e)
              (Some (raster_output w)).

(** The ways the run can end before the loop is entered, by what
    the rasterizer returned: outcome, events after the prologue, and
    the temporary directory at the end. *)
Inductive BeforeLoop
  : RunResult -> Outcome -> list Event -> option (list string) -> Prop :=
| RasterNotLaunched e :
    BeforeLoop (LaunchFailure e) (FatalError e) (on_error e) (Some [])
| RasterFailed r :
    returncode r <> 0%Z ->
    BeforeLoop (Launched r)
      (FatalError ("PDF conversion failed: " ++ stderr r)%string)
      (on_error ("PDF conversion failed: " ++ stderr r)%string)
      (Some (raster_output w))
| CancelledAfterConversion r :
    returncode r = 0%Z ->
    BeforeLoop (Launched r) Cancelled [Polled AfterConversion true]
      (Some (raster_output w))
| NoPages r :
    returncode r = 0%Z ->
    total_pages w = 0 ->
    BeforeLoop (Launched r) (FatalError "No images generated from PDF")
      (counted ++ on_error "No images generated from PDF")
      (Some (raster_output w))
| OpenFailed r e :
    returncode r = 0%Z ->
    total_pages w <> 0 ->
    open_error w = Some e ->
    BeforeLoop (Launched r) (FatalError e)
      (counted ++ announce ++ [Opened (output_path job) false]
       ++ on_error e)
      (Some (raster_output w)).

Inductive Shape (old : option string) : Outcome -> State -> Prop :=
| StoppedEarly res o ev wa :
    run w (pdftoppm_cmd job (temp_name w)) = res ->
    BeforeLoop res o ev wa ->
    Shape old o (mkState (prologue res ++ ev ++ epilogue) old wa)
| PagesLoop r frs rest tail c o after wa :
    run w (pdftoppm_cmd job (temp_name w)) = Launched r ->
    returncode r = 0%Z ->
    total_pages w <> 0 ->
    open_error w = None ->
    image_files w = map fst frs ++ rest ->
    launched w job frs ->
    LoopEnd w job (List.length frs) c rest tail ->
    AfterLoop c o after wa ->
    Shape old o
      (mkState (prologue (Launched r) ++ counted ++ announce
                ++ [Opened (output_path job) true]
                ++ pages_events w job 0 frs ++ tail ++ [Closed]
                ++ after ++ epilogue)
               (Some (pages_text 0 (map snd frs))) wa).

End Shapes.

(** ** Vocabulary of the specification *)

(** The text of a file made of the given pieces, in order. *)
Fixpoint join (l : list string) : string :=
  match l with
  | [] => ""
  | x :: l' => (x ++ join l')%string
  end.


(** The block of page [i] whose captured result is [r]: the separator
    line between two newlines and a newline, then the captured text. *)
Definition block (ir : nat * CompletedProcess) : string :=
  (page_header (fst ir) ++ stdout (snd ir))%string.

Definition exit_ok (ir : nat * CompletedProcess) : bool :=
  (returncode (snd ir) =? 0)%Z.

(** The invocation of the OCR tool on [f] that returned [r]. *)
Definition ocr_run (w : World) (job : Job) (fr : string * CompletedProcess)
  : list string * RunResult :=
  (ocr_cmd w job (fst fr), Launched (snd fr)).


(** ** A sample job

    The document of the example scenario: three page images (listed
    out of order, next to a stray file), [tesseract] answering per
    image. *)

Module Scenario.

Definition ok (text : string) : RunResult :=
  Launched (mkCompleted 0 text "").

Definition failing (err : string) : RunResult :=
  Launched (mkCompleted 1 "" err).

(** [tesseract] answers by image; [answers] lists the images it
    recognises, any other image makes it fail. *)
Fixpoint lookup (answers : list (string * string)) (img : string)
  : RunResult :=
  match answers with
  | [] => failing "cannot read image"
  | (name, text) :: rest =>
      if String.eqb img name then ok text else lookup rest img
  end.

Definition tools (answers : list (string * string)) (cmd : list string)
  : RunResult :=
  match cmd with
  | [_; img; _; _; _] => lookup answers img     (* tesseract *)
  | _ => ok ""                                  (* pdftoppm *)
  end.

Definition listing : list string :=
  ["page-3.png"; "page-1.png"; "notes.txt"; "page-2.png"].

Definition world (answers : list (string * string))
           (rmtree_err : option string) (flag : nat -> bool) : World :=
  mkWorld "/tmp/ocr_x" (tools answers) listing None rmtree_err flag.

(** the rasterizer exits with status zero but leaves no image *)
Definition blank (flag : nat -> bool) : World :=
  mkWorld "/tmp/ocr_x" (tools []) ["notes.txt"] None None flag.

Definition all_pages : list (string * string) :=
  [("/tmp/ocr_x/page-1.png", "Hello"); ("/tmp/ocr_x/page-2.png", "and");
   ("/tmp/ocr_x/page-3.png", "World")].


Definition never : nat -> bool := fun _ => false.
Definition always : nat -> bool := fun _ => true.
(** the flag is set once the worker has performed [n] effects *)
Definition from (n : nat) : nat -> bool := fun t => (n <=? t)%nat.

Definition job (cleanup : bool) : Job :=
  mkJob "doc.pdf" "out.txt" "eng" cleanup.

End Scenario.

(** What the environment's OCR tool contributes for the image [f]
    taken as page [page_num]: its block if it is launched and exits
    with status zero, nothing otherwise. *)
Definition result_block (w : World) (job : Job) (page_num : nat)
           (f : string) : string :=
  match run w (ocr_cmd w job f) with
  | Launched r => page_block page_num r
  | LaunchFailure _ => ""
  end.

(** The blocks of the images [files] taken as pages [first],
    [first + 1], ... *)
Fixpoint recognized_text (w : World) (job : Job) (first : nat)
         (files : list string) : string :=
  match files with
  | [] => ""
  | f :: files' =>
      (result_block w job first f
       ++ recognized_text w job (S first) files')%string
  end.

(** The number of pages on which the OCR tool was started. *)
Definition pages_started (s : State) : nat :=
  List.length (ocr_runs (events s)).

(** The events a page of the loop can contribute. *)
Definition page_event (e : Event) : Prop :=
  match e with
  | Polled (PageTop _) false | Progress _ | ProgressLabel _
  | Ran _ (Launched _) | Wrote _ | Log INFO _ | Log WARNING _ => True
  | _ => False
  end.

(** ** The claims on cleanup, as the specification states them *)

(** "If cleanup_flag is true the WorkArea no longer exists at the end of
    a Completed or Cancelled job; if it is false the WorkArea and its
    contents still exist." *)
Definition cleanup_as_specified (w : World) (job : Job)
           (old : option string) : Prop :=
  let o := fst (run_job w job old) in
  let s := snd (run_job w job old) in
  o = Completed \/ o = Cancelled ->
  (cleanup_images job = true -> work_area s = None)
  /\ (cleanup_images job = false -> work_area s = Some (raster_output w)).

(** "A failing deletion of the WorkArea is logged as a Warning and the
    job still reaches Completed, emitting progress 100 and the final
    Success log." *)
Definition cleanup_failure_as_specified (w : World) (job : Job)
           (old : option string) : Prop :=
  let o := fst (run_job w job old) in
  let s := snd (run_job w job old) in
  In (Rmtree (temp_name w) false) (events s) ->
  logged WARNING (events s) <> []
  /\ o = Completed
  /\ In (Progress 100%Q) (events s)
  /\ In (Log SUCCESS "OCR processing completed successfully!") (events s).

(** "If the flag is set before the rasterization call, the rasterizer
    is never invoked." *)
Definition early_poll_as_specified (w : World) (job : Job)
           (old : option string) : Prop :=
  processing_cancelled w 0 = true ->
  raster_runs (events (snd (run_job w job old))) = [].

(** "If the rasterizer exits with status zero but leaves no matching
    image, the job fails fatally before any OCR invocation." *)
Definition no_pages_as_specified (w : World) (job : Job)
           (old : option string) : Prop :=
  let o := fst (run_job w job old) in
  let s := snd (run_job w job old) in
  forall r,
    run w (pdftoppm_cmd job (temp_name w)) = Launched r ->
    returncode r = 0%Z ->
    filter is_png (raster_output w) = [] ->
    o = FatalError "No images generated from PDF" /\ ocr_runs (events s) = [].




(** The two pieces written for a recognised page. *)
Definition block_pieces (ir : nat * CompletedProcess) : list string :=
  [page_header (fst ir); stdout (snd ir)].






(** ** Further readings of a trace *)

(** The callbacks handed to the Tk main loop, in order. *)
Definition callbacks (tr : list Event) : list Callback :=
  flat_map (fun e => match e with After cb => [cb] | _ => [] end) tr.

(** The directories [shutil.rmtree] was applied to, with its success. *)
Definition deletions (tr : list Event) : list (string * bool) :=
  flat_map (fun e => match e with Rmtree d ok => [(d, ok)] | _ => [] end) tr.

(** The operations on the output file. *)
Definition is_file_op (e : Event) : bool :=
  match e with
  | Opened _ _ | Wrote _ | Closed => true
  | _ => false
  end.

Definition file_ops (tr : list Event) : list Event := filter is_file_op tr.

(** The directories listed with [os.listdir]. *)
Definition listings (tr : list Event) : list string :=
  flat_map (fun e => match e with Listdir d => [d] | _ => [] end) tr.

(** Whether the button that opens the result was enabled. *)
Definition view_enabled (tr : list Event) : bool :=
  existsb (fun e => match e with ViewButtonEnabled => true | _ => false end) tr.

(** ** A job whose OCR tool cannot be launched on one image *)

Module Faults.

(** [tesseract] cannot be launched on the image [bad]; it recognises
    any other image as the text "ok". *)
Definition tools (bad : string) (cmd : list string) : RunResult :=
  match cmd with
  | [_; img; _; _; _] =>
      if String.eqb img bad
      then LaunchFailure "[Errno 2] No such file or directory: 'tesseract'"
      else Launched (mkCompleted 0 "ok" "")
  | _ => Launched (mkCompleted 0 "" "")
  end.

Definition world (bad : string) : World :=
  mkWorld "/tmp/ocr_x" (tools bad) Scenario.listing None None Scenario.never.

(** the rasterizer exits with the given status and error text *)
Definition raster_exit (code : Z) (err : string) : World :=
  mkWorld "/tmp/ocr_x" (fun _ => Launched (mkCompleted code "" err))
          Scenario.listing None None Scenario.never.

(** the rasterizer cannot be launched *)
Definition raster_missing : World :=
  mkWorld "/tmp/ocr_x" (fun _ => LaunchFailure "pdftoppm not found")
          [] None None Scenario.never.

(** the output file cannot be opened *)
Definition unwritable : World :=
  mkWorld "/tmp/ocr_x" (Scenario.tools Scenario.all_pages) Scenario.listing
          (Some "[Errno 13] Permission denied: 'out.txt'") None
          Scenario.never.

End Faults.

(** ** The GUI thread (lines 304-366)

    The methods of [ModernOCRApp] that run in the Tk main loop: input
    validation, the dependency check, the Start and Cancel buttons and
    the UI reset.  [App] holds the Tk variables and widget states they
    touch; what they ask of the system is answered by a [Desk]. *)

Module Gui.

Inductive ButtonState := normal | disabled.

(** The modal boxes of [tkinter.messagebox]. *)
Inductive Dialog :=
| ErrorBox (title message : string)     (* messagebox.showerror *)
| InfoBox (title message : string).     (* messagebox.showinfo *)

(** What the GUI thread does besides changing widgets, in order. *)
Inductive Action :=
| Exists (path : string) (found : bool)   (* Path(path).exists() *)
| Which (tool : string) (found : bool)    (* shutil.which(tool) *)
| Box (d : Dialog)
| ThreadStarted (flag : bool).
    (* self.processing_thread.start(), with the value the flag has then *)

(** The system as the GUI thread sees it. *)
Record Desk := mkDesk {
  path_exists : string -> bool;
  which : string -> option string
}.

Record App := mkApp {
  (** [pdf_path], [output_path], [language], [cleanup_images] *)
  inputs : Job;
  start_button : ButtonState;
  cancel_button : ButtonState;
  view_button : ButtonState;
  progress_var : Q;
  progress_label : string;
  status_var : string;
  (** the lines of the log widget: level and message *)
  log_text : list (Level * string);
  processing_cancelled : bool;
  (** callbacks handed to [root.after(0, ...)] and not yet run *)
  pending : list Callback;
  actions : list Action
}.

Definition act (x : Action) (a : App) : App :=
  mkApp (inputs a) (start_button a) (cancel_button a) (view_button a)
        (progress_var a) (progress_label a) (status_var a) (log_text a)
        (processing_cancelled a) (pending a) (actions a ++ [x]).

Definition showerror (title message : string) (a : App) : App :=
  act (Box (ErrorBox title message)) a.


(** [self.log_message(message, level)]. *)
Definition log_message (message : string) (level : Level) (a : App) : App :=
  mkApp (inputs a) (start_button a) (cancel_button a) (view_button a)
        (progress_var a) (progress_label a) (status_var a)
        (log_text a ++ [(level, message)])
        (processing_cancelled a) (pending a) (actions a).

Section Methods.

Variable desk : Desk.

(** [validate_inputs] (lines 321-335). *)
Definition validate_inputs (a : App) : bool * App :=
  if String.eqb (pdf_path (inputs a)) "" then
    (false, showerror "Error" "Please select a PDF file." a)
  else if String.eqb (output_path (inputs a)) "" then
    (false, showerror "Error" "Please specify an output file." a)
  else
    let found := path_exists desk (pdf_path (inputs a)) in
    let a1 := act (Exists (pdf_path (inputs a)) found) a in
    if negb found then
      (false, showerror "Error" "The selected PDF file does not exist." a1)
    else (true, a1).

Definition tools : list string := ["pdftoppm"; "tesseract"].

Definition is_missing (tool : string) : bool :=
  match which desk tool with
  | None => true
  | Some _ => false
  end.

(** The loop of [check_dependencies] over [tools], from the list
    [missing] collected so far. *)
Fixpoint probe (ts : list string) (missing : list string) (a : App)
  : list string * App :=
  match ts with
  | [] => (missing, a)
  | tool :: ts' =>
      let a1 := act (Which tool (negb (is_missing tool))) a in
      if is_missing tool
      then probe ts' (missing ++ [tool]) a1
      else probe ts' missing a1
  end.

(** [check_dependencies] (lines 304-319). *)
Definition check_dependencies (a : App) : bool * App :=
  let (missing, a1) := probe tools [] a in
  match missing with
  | [] => (true, a1)
  | _ :: _ =>
      let missing_str := String.concat ", " missing in
      (false,
       showerror "Missing Dependencies"
         ("The following tools are required but not installed:" ++ nl
          ++ missing_str ++ nl ++ nl
          ++ "Please install them using your package manager.")%string a1)
  end.

(** [reset_ui] (lines 360-366). *)
Definition reset_ui (a : App) : App :=
  mkApp (inputs a) normal disabled (view_button a)
        0%Q "Ready" "Ready to process PDF files" (log_text a)
        (processing_cancelled a) (pending a) (actions a).

(** [self.processing_thread.start()]: the worker starts with the flag
    as it is now. *)
Definition start_thread (a : App) : App :=
  act (ThreadStarted (processing_cancelled a)) a.

(** [start_processing] (lines 337-352); the boolean tells whether the
    worker thread was started. *)
Definition start_processing (a : App) : bool * App :=
  let (valid, a1) := validate_inputs a in
  if negb valid then (false, a1)
  else
    let (present, a2) := check_dependencies a1 in
    if negb present then (false, a2)
    else
      (* update the UI state, clear the log and the flag, then start
         the thread *)
      (true,
       start_thread
         (mkApp (inputs a2) disabled normal disabled
                0%Q (progress_label a2) (status_var a2) []
                false (pending a2) (actions a2))).

(** [cancel_processing] (lines 354-358). *)
Definition cancel_processing (a : App) : App :=
  let a1 := mkApp (inputs a) (start_button a) (cancel_button a)
                  (view_button a) (progress_var a) (progress_label a)
                  (status_var a) (log_text a) true (pending a) (actions a) in
  reset_ui (log_message "Processing cancelled by user" WARNING a1).

End Methods.

(** *** What the worker does to the widgets

    The worker thread sets the Tk variables directly and hands
    callbacks to the main loop, which runs them in the order received. *)







(** The boxes shown so far. *)
Definition boxes (a : App) : list Dialog :=
  flat_map (fun x => match x with Box d => [d] | _ => [] end) (actions a).

(** The worker threads started so far, each with the value the flag
    had when it started. *)
Definition starts (a : App) : list bool :=
  flat_map (fun x => match x with ThreadStarted b => [b] | _ => [] end)
           (actions a).

(** The tools looked up so far. *)
Definition lookups (a : App) : list string :=
  flat_map (fun x => match x with Which t _ => [t] | _ => [] end) (actions a).

(** Two states with the same widgets, variables and flag. *)
Definition same_widgets (a b : App) : Prop :=
  inputs a = inputs b
  /\ start_button a = start_button b
  /\ cancel_button a = cancel_button b
  /\ view_button a = view_button b
  /\ progress_var a = progress_var b
  /\ progress_label a = progress_label b
  /\ status_var a = status_var b
  /\ log_text a = log_text b
  /\ processing_cancelled a = processing_cancelled b
  /\ pending a = pending b.

(** A desk and a window for examples. *)
Definition sample_desk (pdf_there tesseract_there : bool) : Desk :=
  mkDesk (fun _ => pdf_there)
         (fun tool =>
            if String.eqb tool "tesseract" && negb tesseract_there
            then None else Some ("/usr/bin/" ++ tool)%string).

Definition fresh (pdf out : string) : App :=
  mkApp (mkJob pdf out "eng" true) normal disabled disabled
        0%Q "Ready" "Ready to process PDF files" [] false [] [].

End Gui.


(** ** The notebook scanners ([boring_stuff/search_jupyter_nb.py] and
    [boring_stuff/print_where_find.py])

    Both scripts walk over [.ipynb] files, load each as JSON and look
    for a target text in the sources of its cells.  The values are
    what [json.load] returns; operations that Python rejects on a
    value raise, as they do in the scripts, where [scan_ipynbs]
    catches them per file. *)

Module Nb.

(** What [json.load] returns. *)
Unset Elimination Schemes.
Inductive Json :=
| JNull
| JBool (b : bool)
| JNum (numeral : string)                 (* int or float *)
| JStr (s : string)
| JList (l : list Json)
| JDict (d : list (string * Json)).  (* each key once, insertion order *)
Set Elimination Schemes.

Inductive PyError :=
| TypeError
| AttributeError
| KeyError
| Failure (message : string).   (* raised by the system: OSError, ... *)

Inductive Res (A : Type) :=
| Ok (a : A)
| Raise (e : PyError).

Arguments Ok {A} a.
Arguments Raise {A} e.

Definition bind {A B} (r : Res A) (k : A -> Res B) : Res B :=
  match r with
  | Ok a => k a
  | Raise e => Raise e
  end.

(** [t in s] on two strings. *)
Fixpoint contains (t s : string) : bool :=
  String.prefix t s
  || match s with
     | EmptyString => false
     | String _ s' => contains t s'
     end.

(** [d.get(key)] / key lookup in a dict. *)
Fixpoint lookup (key : string) (d : list (string * Json)) : option Json :=
  match d with
  | [] => None
  | (k, v) :: d' => if String.eqb k key then Some v else lookup key d'
  end.

Definition has_key (key : string) (d : list (string * Json)) : bool :=
  match lookup key d with
  | Some _ => true
  | None => false
  end.

Definition is_str (t : string) (v : Json) : bool :=
  match v with
  | JStr s => String.eqb s t
  | _ => false
  end.

(** [t in v] for a string [t] and any value [v]. *)
Definition py_in (t : string) (v : Json) : Res bool :=
  match v with
  | JStr s => Ok (contains t s)
  | JList l => Ok (existsb (is_str t) l)
  | JDict d => Ok (has_key t d)
  | JNull | JBool _ | JNum _ => Raise TypeError
  end.

(** [v[key]] for a string key. *)
Definition subscript (v : Json) (key : string) : Res Json :=
  match v with
  | JDict d =>
      match lookup key d with
      | Some x => Ok x
      | None => Raise KeyError
      end
  | _ => Raise TypeError
  end.

(** [''.join(l)]: every item must be a string. *)
Fixpoint join_strs (l : list Json) : Res string :=
  match l with
  | [] => Ok ""
  | JStr s :: l' => bind (join_strs l') (fun t => Ok (s ++ t)%string)
  | _ :: _ => Raise TypeError
  end.

Fixpoint chars (s : string) : list Json :=
  match s with
  | EmptyString => []
  | String c s' => JStr (String c EmptyString) :: chars s'
  end.

(** The items [for ... in v] goes through. *)
Definition iterate (v : Json) : Res (list Json) :=
  match v with
  | JList l => Ok l
  | JDict d => Ok (map (fun kv => JStr (fst kv)) d)
  | JStr s => Ok (chars s)
  | JNull | JBool _ | JNum _ => Raise TypeError
  end.

(** [''.join(cell['source']) if isinstance(cell['source'], list)
    else cell['source']]. *)
Definition source_text (cell : Json) : Res Json :=
  bind (subscript cell "source") (fun src =>
  match src with
  | JList l => bind (join_strs l) (fun s => Ok (JStr s))
  | _ => Ok src
  end).

(** *** [search_jupyter_nb.py] *)

Definition TARGET_SUBSTRING : string := "pollinations.ai".

(** The loop of [check_cells_for_match] (lines 21-27), at index [idx]. *)
Fixpoint match_from (target : string) (idx : nat) (cells : list Json)
  : Res (bool * Z) :=
  match cells with
  | [] => Ok (false, (-1)%Z)
  | cell :: rest =>
      bind (py_in "source" cell) (fun has =>
      if has then
        bind (source_text cell) (fun text =>
        bind (py_in target text) (fun found =>
        if found then Ok (true, Z.of_nat idx)
        else match_from target (S idx) rest))
      else match_from target (S idx) rest)
  end.

Definition check_cells_for_match (target : string) (cells : Json)
  : Res (bool * Z) :=
  bind (iterate cells) (match_from target 0).

(** *** [print_where_find.py] *)

Definition TARGET_SUBSTRINGS : list string := ["image.pollinations.ai"].

(** [for target in TARGET_SUBSTRINGS: if target in source_text: ...]:
    the first target found, if any. *)
Fixpoint first_target (targets : list string) (text : Json)
  : Res (option string) :=
  match targets with
  | [] => Ok None
  | target :: rest =>
      bind (py_in target text) (fun found =>
      if found then Ok (Some target) else first_target rest text)
  end.

(** The loop of its [check_cells_for_match] (lines 27-33); the result
    is [(True, idx, target)] or [(False, -1, None)]. *)
Fixpoint match_any_from (targets : list string) (idx : nat)
         (cells : list Json) : Res (bool * Z * option string) :=
  match cells with
  | [] => Ok (false, (-1)%Z, None)
  | cell :: rest =>
      bind (py_in "source" cell) (fun has =>
      if has then
        bind (source_text cell) (fun text =>
        bind (first_target targets text) (fun hit =>
        match hit with
        | Some target => Ok (true, Z.of_nat idx, Some target)
        | None => match_any_from targets (S idx) rest
        end))
      else match_any_from targets (S idx) rest)
  end.

Definition check_cells_for_any (targets : list string) (cells : Json)
  : Res (bool * Z * option string) :=
  bind (iterate cells) (match_any_from targets 0).

(** *** [scan_ipynbs] of [search_jupyter_nb.py] (lines 38-60) *)

(** The system as the scan sees it. *)
Record Disk := mkDisk {
  (** the paths [root.rglob("*.ipynb")] yields, in order *)
  found : list string;
  (** [open] followed by [json.load] *)
  load : string -> Res Json;
  (** the hexadecimal text of the [k]-th [uuid.uuid4()] *)
  uuid_hex : nat -> string;
  (** [None] when [shutil.copy2(src, dest)] succeeds *)
  copy2 : string -> string -> option PyError
}.

(** The lines printed. *)
Inductive Line :=
| Scanning (root : string)
| Matched (path : string) (cell : Z) (dest_name : string)
| Skipped (path : string)
| Errored (path : string) (e : PyError)
| Complete (count_matched count_total : nat).

Record Scan := mkScan {
  count_total : nat;
  count_matched : nat;
  printed : list Line;
  (** the copies made, source and destination *)
  copied : list (string * string);
  (** the number of identifiers drawn so far *)
  drawn : nat
}.

(** [Path(p).name] for a path without trailing separator: what
    follows the last [/]. *)
Fixpoint name_from (acc : string) (p : string) : string :=
  match p with
  | EmptyString => acc
  | String c p' =>
      if Ascii.eqb c "/"%char then name_from p' p'
      else name_from acc p'
  end.

Definition path_name (p : string) : string := name_from p p.

Definition OUTPUT_DIR : string := "matched_notebooks".

(** [data.get("cells", [])]. *)
Definition get_cells (data : Json) : Res Json :=
  match data with
  | JDict d =>
      match lookup "cells" d with
      | Some v => Ok v
      | None => Ok (JList [])
      end
  | _ => Raise AttributeError
  end.

Section Scanning.

Variable disk : Disk.

(** The body of the loop for one file. *)
Definition scan_file (st : Scan) (filepath : string) : Scan :=
  let total := S (count_total st) in
  let attempt :=
    bind (load disk filepath) (fun data =>
    bind (get_cells data) (fun cells =>
    check_cells_for_match TARGET_SUBSTRING cells)) in
  match attempt with
  | Raise e =>
      mkScan total (count_matched st)
             (printed st ++ [Errored filepath e]) (copied st) (drawn st)
  | Ok (false, _) =>
      mkScan total (count_matched st)
             (printed st ++ [Skipped filepath]) (copied st) (drawn st)
  | Ok (true, idx) =>
      (* copy_with_unique_name *)
      let unique_name :=
        (uuid_hex disk (drawn st) ++ "_" ++ path_name filepath)%string in
      let dest := (OUTPUT_DIR ++ "/" ++ unique_name)%string in
      match copy2 disk filepath dest with
      | Some e =>
          mkScan total (count_matched st)
                 (printed st ++ [Errored filepath e]) (copied st)
                 (S (drawn st))
      | None =>
          mkScan total (S (count_matched st))
                 (printed st ++ [Matched filepath idx (path_name dest)])
                 (copied st ++ [(filepath, dest)]) (S (drawn st))
      end
  end.

Definition scan_ipynbs (root : string) : Scan :=
  let st := fold_left scan_file (found disk)
                      (mkScan 0 0 [Scanning root] [] 0) in
  mkScan (count_total st) (count_matched st)
         (printed st ++ [Complete (count_matched st) (count_total st)])
         (copied st) (drawn st).

End Scanning.

(** *** Vocabulary *)

(** A cell as notebooks have them: a dict whose source, if any, is a
    string or a list of strings. *)
Definition lines_ok (l : list Json) : Prop :=
  Forall (fun v => exists s, v = JStr s) l.

Definition well_formed (cell : Json) : Prop :=
  exists d, cell = JDict d
            /\ match lookup "source" d with
               | None => True
               | Some (JStr _) => True
               | Some (JList l) => lines_ok l
               | Some _ => False
               end.

Fixpoint concat_strs (l : list Json) : string :=
  match l with
  | [] => ""
  | JStr s :: l' => (s ++ concat_strs l')%string
  | _ :: l' => concat_strs l'
  end.

(** The text of a well-formed cell that is searched, if it has one. *)
Definition cell_text (cell : Json) : option string :=
  match cell with
  | JDict d =>
      match lookup "source" d with
      | Some (JStr s) => Some s
      | Some (JList l) => Some (concat_strs l)
      | _ => None
      end
  | _ => None
  end.

Definition mentions (target : string) (cell : Json) : bool :=
  match cell_text cell with
  | Some s => contains target s
  | None => false
  end.

(** A cell the loop cannot even inspect: not a container. *)
Definition opaque_cell (cell : Json) : bool :=
  match cell with
  | JNull | JBool _ | JNum _ => true
  | _ => false
  end.

Definition is_matched (l : Line) : bool :=
  match l with Matched _ _ _ => true | _ => false end.

Definition line_path (l : Line) : list string :=
  match l with
  | Matched p _ _ | Skipped p | Errored p _ => [p]
  | _ => []
  end.

(** A disk for examples: two notebooks and a file that is not JSON. *)
Definition notebook (lines : list string) : Json :=
  JDict [("cells",
          JList [JDict [("cell_type", JStr "markdown")];
                 JDict [("cell_type", JStr "code");
                        ("source", JList (map JStr lines))]]);
         ("nbformat", JNum "4")].

Definition sample_disk : Disk :=
  mkDisk ["nb/a.ipynb"; "nb/broken.ipynb"; "nb/sub/b.ipynb"]
         (fun p =>
            if String.eqb p "nb/a.ipynb"
            then Ok (notebook ["url = 'https://image.pollina";
                               "tions.ai/prompt/x'"])
            else if String.eqb p "nb/sub/b.ipynb"
            then Ok (notebook ["print(1)"])
            else Raise (Failure "Expecting value: line 1 column 1 (char 0)"))
         (fun k => match k with 0 => "0f" | 1 => "1e" | _ => "2d" end)
         (fun _ _ => None).

End Nb.

(** ** Reading a scan *)

(** What the [try] block of [scan_ipynbs] computes for a file before
    any copy is made. *)
Definition scan_attempt (disk : Nb.Disk) (filepath : string)
  : Nb.Res (bool * Z) :=
  Nb.bind (Nb.load disk filepath) (fun data =>
  Nb.bind (Nb.get_cells data) (fun cells =>
  Nb.check_cells_for_match Nb.TARGET_SUBSTRING cells)).

(** The file is a notebook with a cell that contains the target. *)
Definition hit (disk : Nb.Disk) (filepath : string) : bool :=
  match scan_attempt disk filepath with
  | Nb.Ok (true, _) => true
  | _ => false
  end.

(** The destination built from the [k]-th identifier. *)
Definition dest_of (disk : Nb.Disk) (k : nat) (src : string) : string :=
  (Nb.OUTPUT_DIR ++ "/" ++ Nb.uuid_hex disk k ++ "_" ++ Nb.path_name src)
  %string.


(** The first of the targets, in the order of the list, that the cell
    mentions. *)
Definition first_mentioned (targets : list string) (cell : Nb.Json)
  : option string :=
  find (fun t => Nb.mentions t cell) targets.

(** What a run of the loop adds to the state. *)
Record Grows (disk : Nb.Disk) (files : list string) (st st' : Nb.Scan)
  : Prop := {
  grows_total : Nb.count_total st' = Nb.count_total st + List.length files;
  grows_printed :
    exists body,
      Nb.printed st' = Nb.printed st ++ body
      /\ map Nb.line_path body = map (fun p => [p]) files
      /\ Nb.count_matched st'
         = Nb.count_matched st + List.length (filter Nb.is_matched body)
      /\ forall p e, In (Nb.Errored p e) body ->
                     scan_attempt disk p = Nb.Raise e
                     \/ hit disk p = true
                        /\ exists d, Nb.copy2 disk p d = Some e;
  grows_copied :
    exists new,
      Nb.copied st' = Nb.copied st ++ new
      /\ Nb.count_matched st' = Nb.count_matched st + List.length new
      /\ (forall src dest,
             In (src, dest) new ->
             In src files /\ hit disk src = true
             /\ Nb.copy2 disk src dest = None
             /\ exists k, Nb.drawn st <= k < Nb.drawn st'
                          /\ dest = dest_of disk k src)
      /\ ((forall s d, Nb.copy2 disk s d = None) ->
          map fst new = filter (hit disk) files);
  grows_drawn :
    Nb.drawn st <= Nb.drawn st' <= Nb.drawn st + List.length files
}.

(** * Properties *)

(** ** Strings and states *)

Lemma append_nil_r (s : string) : (s ++ "")%string = s.
Proof. induction s as [|c s IH]; simpl; [reflexivity | now rewrite IH]. Qed.

Lemma append_assoc (a b c : string) :
  ((a ++ b) ++ c)%string = (a ++ (b ++ c))%string.
Proof. induction a as [|x a IH]; simpl; [reflexivity | now rewrite IH]. Qed.

Lemma state_eq (s : State) ev out wa :
  events s = ev -> output_file s = out -> work_area s = wa ->
  s = mkState ev out wa.
Proof. destruct s; simpl; intros; subst; reflexivity. Qed.

(** ** One step of the worker *)

Arguments page_progress : simpl never.
Arguments page_header : simpl never.
Arguments processing_label : simpl never.
Arguments processed_message : simpl never.
Arguments failed_message : simpl never.
Arguments Py.str : simpl never.
Arguments Py.path_join : simpl never.

Section Steps.

Variable w : World.
Variable job : Job.
Context {B : Type}.

Lemma bind_assoc {A C} (m : M A) (f : A -> M C) (g : C -> M B) s :
  bind (bind m f) g s = bind m (fun x => bind (f x) g) s.
Proof. unfold bind. destruct (m s) as [[a| |e] s']; reflexivity. Qed.

Lemma bind_ret {A} (a : A) (k : A -> M B) s : bind (ret a) k s = k a s.
Proof. reflexivity. Qed.

Lemma bind_emit e (k : unit -> M B) s :
  bind (emit e) k s = k tt (record e s).
Proof. reflexivity. Qed.

Lemma bind_log m l (k : unit -> M B) s :
  bind (log_message m l) k s = k tt (record (Log l m) s).
Proof. reflexivity. Qed.

Lemma bind_raise {A} e (k : A -> M B) s : bind (raise e) k s = (Raised e, s).
Proof. reflexivity. Qed.

Lemma bind_return {A} (k : A -> M B) s :
  bind early_return k s = (Returned, s).
Proof. reflexivity. Qed.

Lemma bind_write t (k : unit -> M B) s :
  bind (write t) k s =
  k tt (mkState (events s ++ [Wrote t])
                (option_map (fun c => (c ++ t)%string) (output_file s))
                (work_area s)).
Proof. reflexivity. Qed.

Lemma bind_poll p (k : bool -> M B) s :
  bind (poll w p) k s =
  k (processing_cancelled w (List.length (events s)))
    (record (Polled p (processing_cancelled w (List.length (events s)))) s).
Proof. reflexivity. Qed.

Lemma bind_run_ocr f (k : CompletedProcess -> M B) s :
  bind (subprocess_run w (ocr_cmd w job f)) k s =
  match run w (ocr_cmd w job f) with
  | Launched r => k r (record (Ran (ocr_cmd w job f) (Launched r)) s)
  | LaunchFailure e =>
      (Raised e, record (Ran (ocr_cmd w job f) (LaunchFailure e)) s)
  end.
Proof.
  unfold bind, subprocess_run.
  destruct (run w (ocr_cmd w job f)); reflexivity.
Qed.

End Steps.

Ltac step :=
  first [ rewrite bind_assoc | rewrite bind_ret | rewrite bind_emit
        | rewrite bind_log | rewrite bind_raise | rewrite bind_return
        | rewrite bind_write | rewrite bind_poll ].

Ltac step_in H :=
  first [ rewrite bind_assoc in H | rewrite bind_ret in H
        | rewrite bind_emit in H | rewrite bind_log in H
        | rewrite bind_raise in H | rewrite bind_return in H
        | rewrite bind_write in H | rewrite bind_poll in H ].

(** ** The per-page loop *)

Section LoopFacts.

Variable w : World.
Variable job : Job.

Let loop := page_loop w job (temp_name w) (total_pages w).

(** Whatever the environment does, the loop processes a prefix of the
    remaining files to their end and is then left in one of the three
    ways of [LoopEnd]; the trace and the output file grow by exactly
    what those pages contribute. *)
Lemma page_loop_run (files : list string) :
  forall (i : nat) (s : State),
  exists frs rest tail c,
    files = map fst frs ++ rest /\
    launched w job frs /\
    LoopEnd w job (i + List.length frs) c rest tail /\
    loop i files s =
      (c, mkState (events s ++ pages_events w job i frs ++ tail)
                  (option_map
                     (fun o => (o ++ pages_text i (map snd frs))%string)
                     (output_file s))
                  (work_area s)).
Proof.
  subst loop.
  induction files as [|f files IH]; intros i s.
  - exists [], [], [], (Normal tt). simpl.
    rewrite Nat.add_0_r. repeat split; try constructor.
    unfold ret. f_equal. apply state_eq.
    + now rewrite app_nil_r.
    + destruct (output_file s); simpl; [now rewrite append_nil_r | reflexivity].
    + reflexivity.
  - cbn [page_loop]. step.
    destruct (processing_cancelled w (List.length (events s))) eqn:Hc;
      unfold when; repeat step.
    + exists [], (f :: files), [Polled (PageTop i) true], Returned. simpl.
      rewrite Nat.add_0_r. repeat split; try constructor.
      f_equal. apply state_eq; simpl; trivial.
      destruct (output_file s); simpl; [now rewrite append_nil_r | reflexivity].
    + fold (ocr_cmd w job f). rewrite bind_run_ocr.
      destruct (run w (ocr_cmd w job f)) as [r|e] eqn:Hrun.
      * destruct (returncode r =? 0)%Z eqn:Hrc; repeat step;
          match goal with
          | |- context [page_loop _ _ _ _ (S i) files ?s1] =>
              destruct (IH (S i) s1)
                as (frs & rest & tail & c & Hf & Hl & He & Hrun')
          end;
          exists ((f, r) :: frs), rest, tail, c;
          (split; [simpl; now rewrite Hf|]);
          (split; [constructor; [exact Hrun | exact Hl]|]);
          (split; [simpl; now rewrite <- Nat.add_succ_comm|]);
          rewrite Hrun'; f_equal; apply state_eq;
          simpl; unfold page_events, page_block; rewrite ?Hrc;
          repeat rewrite <- app_assoc; trivial;
          destruct (output_file s); cbn [option_map]; trivial;
          now rewrite ?append_assoc.
      * exists [], (f :: files). eexists. exists (Raised e). simpl.
        rewrite Nat.add_0_r.
        split; [reflexivity|]. split; [constructor|].
        split; [apply EndLaunch; exact Hrun|].
        f_equal. apply state_eq; simpl.
        -- repeat rewrite <- app_assoc. reflexivity.
        -- destruct (output_file s); simpl; [now rewrite append_nil_r | reflexivity].
        -- reflexivity.
Qed.

End LoopFacts.

(** ** The whole run *)

Section RunFacts.

Variable w : World.
Variable job : Job.

Lemma bind_run_raster {B} (k : CompletedProcess -> M B) s :
  bind (subprocess_run w (pdftoppm_cmd job (temp_name w))) k s =
  match run w (pdftoppm_cmd job (temp_name w)) with
  | Launched r =>
      k r (mkState (events s
                    ++ [Ran (pdftoppm_cmd job (temp_name w)) (Launched r)])
                   (output_file s)
                   (option_map (fun _ => raster_output w) (work_area s)))
  | LaunchFailure e =>
      (Raised e,
       record (Ran (pdftoppm_cmd job (temp_name w)) (LaunchFailure e)) s)
  end.
Proof.
  unfold bind, subprocess_run.
  destruct (run w (pdftoppm_cmd job (temp_name w))); reflexivity.
Qed.

Lemma run_job_cases (old : option string) (o : Outcome) (s : State) :
  run_job w job old = (o, s) -> Shape w job old o s.
Proof.
  unfold run_job, process_pdf, try_body, initial. intro E.
  unfold mkdtemp at 1 in E. unfold bind at 1 in E. repeat step_in E.
  rewrite bind_run_raster in E.
  destruct (run w (pdftoppm_cmd job (temp_name w))) as [r|e] eqn:Hras.
  2:{ simpl in E. inversion E; subst.
      exact (StoppedEarly w job old _ _ _ _ Hras (RasterNotLaunched w job e)). }
  unfold when at 1 in E.
  destruct (returncode r =? 0)%Z eqn:Hrc; cbn [negb] in E.
  2:{ step_in E. simpl in E. inversion E; subst.
      refine (StoppedEarly w job old _ _ _ _ Hras (RasterFailed w job r _)).
      intro H0. rewrite H0 in Hrc. discriminate. }
  apply Z.eqb_eq in Hrc.
  repeat step_in E.
  cbn [events output_file work_area record List.length app option_map] in E.
  destruct (processing_cancelled w 6) eqn:Hc;
    unfold when at 1 in E; repeat step_in E.
  { simpl in E. inversion E; subst.
    exact (StoppedEarly w job old _ _ _ _ Hras
             (CancelledAfterConversion w job r Hrc)). }
  unfold bind at 1, os_listdir at 1 in E.
  cbn [work_area record option_map] in E.
  fold (image_files w) in E. fold (total_pages w) in E.
  destruct (total_pages w =? 0)%nat eqn:Hn; unfold when at 1 in E;
    repeat step_in E.
  { apply Nat.eqb_eq in Hn. simpl in E. inversion E; subst.
    exact (StoppedEarly w job old _ _ _ _ Hras (NoPages w job r Hrc Hn)). }
  apply Nat.eqb_neq in Hn.
  unfold bind at 1, with_open at 1 in E.
  destruct (open_error w) as [e|] eqn:Hop.
  { simpl in E. inversion E; subst.
    exact (StoppedEarly w job old _ _ _ _ Hras
             (OpenFailed w job r e Hrc Hn Hop)). }
  match type of E with
  | context [page_loop _ _ _ _ 0 _ ?s1] =>
      destruct (page_loop_run w job (image_files w) 0 s1)
        as (frs & rest & tail & c & Hf & Hl & He & Hrun)
  end.
  cbv zeta in Hrun. rewrite Hrun in E. clear Hrun.
  cbn [events output_file work_area record option_map] in *.
  assert (Hfin : forall o' after wa s',
             AfterLoop w job c o' after wa ->
             s' = mkState (prologue w job (Launched r) ++ counted w
                           ++ announce w
                           ++ [Opened (output_path job) true]
                           ++ pages_events w job 0 frs ++ tail ++ [Closed]
                           ++ after ++ epilogue)
                          (Some (pages_text 0 (map snd frs))) wa ->
             Shape w job old o' s').
  { intros o' after wa s' Ha ->.
    eapply PagesLoop; eauto. }
  destruct He as [ | f rest' | f rest' e He ].
  - unfold when at 1 in E.
    destruct (cleanup_images job) eqn:Hcl.
    + repeat step_in E. unfold bind at 1, shutil_rmtree at 1 in E.
      destruct (rmtree_error w) as [e|] eqn:Hrm.
      * simpl in E. inversion E; subst.
        eapply Hfin; [apply AfterCleanupFailed; eassumption|].
        unfold record. simpl. repeat rewrite <- app_assoc. reflexivity.
      * repeat step_in E. simpl in E. inversion E; subst.
        eapply Hfin; [apply AfterCleaned; eassumption|].
        unfold record. simpl. repeat rewrite <- app_assoc. reflexivity.
    + repeat step_in E. simpl in E. inversion E; subst.
      eapply Hfin; [apply AfterKept; eassumption|].
      unfold record. simpl. repeat rewrite <- app_assoc. reflexivity.
  - simpl in E. inversion E; subst.
    eapply Hfin; [apply AfterReturned|].
    unfold record. simpl. repeat rewrite <- app_assoc. reflexivity.
  - simpl in E. inversion E; subst.
    eapply Hfin; [apply AfterRaised|].
    unfold record. simpl. repeat rewrite <- app_assoc. reflexivity.
Qed.

Theorem run_job_shape (old : option string) :
  Shape w job old (fst (run_job w job old)) (snd (run_job w job old)).
Proof.
  apply run_job_cases. destruct (run_job w job old); reflexivity.
Qed.

End RunFacts.

(** ** Reading the trace of the loop *)

Lemma ocr_runs_app (a b : list Event) :
  ocr_runs (a ++ b) = ocr_runs a ++ ocr_runs b.
Proof.
  induction a as [|e a IH]; simpl; [reflexivity|].
  destruct e; simpl; try exact IH.
  destruct (is_ocr cmd); simpl; now rewrite IH.
Qed.

Lemma raster_runs_app (a b : list Event) :
  raster_runs (a ++ b) = raster_runs a ++ raster_runs b.
Proof.
  induction a as [|e a IH]; simpl; [reflexivity|].
  destruct e; simpl; try exact IH.
  destruct (is_raster cmd); simpl; now rewrite IH.
Qed.

Lemma progress_values_app (a b : list Event) :
  progress_values (a ++ b) = progress_values a ++ progress_values b.
Proof.
  induction a as [|e a IH]; simpl; [reflexivity|].
  destruct e; simpl; try exact IH. now rewrite IH.
Qed.

Lemma polls_app (a b : list Event) : polls (a ++ b) = polls a ++ polls b.
Proof.
  induction a as [|e a IH]; simpl; [reflexivity|].
  destruct e; simpl; try exact IH. now rewrite IH.
Qed.

Lemma written_app (a b : list Event) :
  written (a ++ b) = written a ++ written b.
Proof.
  induction a as [|e a IH]; simpl; [reflexivity|].
  destruct e; simpl; try exact IH. now rewrite IH.
Qed.

Lemma logged_app (l : Level) (a b : list Event) :
  logged l (a ++ b) = logged l a ++ logged l b.
Proof.
  induction a as [|e a IH]; simpl; [reflexivity|].
  destruct e; simpl; try exact IH.
  destruct l, level; simpl; now rewrite IH.
Qed.

Section PageTrace.

Variable w : World.
Variable job : Job.

Lemma is_ocr_ocr_cmd f : is_ocr (ocr_cmd w job f) = true.
Proof. reflexivity. Qed.

Lemma is_raster_ocr_cmd f : is_raster (ocr_cmd w job f) = false.
Proof. reflexivity. Qed.

Lemma ocr_runs_pages i frs :
  ocr_runs (pages_events w job i frs) =
  map (ocr_run w job) frs.
Proof.
  revert i. induction frs as [|[f r] frs IH]; intro i; simpl; [reflexivity|].
  rewrite ocr_runs_app, IH.
  destruct (returncode r =? 0)%Z; reflexivity.
Qed.

Lemma raster_runs_pages i frs : raster_runs (pages_events w job i frs) = [].
Proof.
  revert i. induction frs as [|[f r] frs IH]; intro i; simpl; [reflexivity|].
  rewrite raster_runs_app, IH.
  destruct (returncode r =? 0)%Z; reflexivity.
Qed.

Lemma progress_values_pages i frs :
  progress_values (pages_events w job i frs) =
  map (fun j => page_progress j (total_pages w)) (seq i (List.length frs)).
Proof.
  revert i. induction frs as [|[f r] frs IH]; intro i; simpl; [reflexivity|].
  rewrite progress_values_app, IH.
  destruct (returncode r =? 0)%Z; reflexivity.
Qed.

Lemma polls_pages i frs :
  polls (pages_events w job i frs) =
  map (fun j => (PageTop j, false)) (seq i (List.length frs)).
Proof.
  revert i. induction frs as [|[f r] frs IH]; intro i; simpl; [reflexivity|].
  rewrite polls_app, IH.
  destruct (returncode r =? 0)%Z; reflexivity.
Qed.

End PageTrace.

(** ** Runs in which every page was handed to the OCR tool *)

Ltac run_shape w job old :=
  let Sh := fresh "Sh" in
  let o := fresh "o" in
  let s := fresh "s" in
  pose proof (run_job_shape w job old) as Sh;
  destruct (run_job w job old) as [o s]; cbn [fst snd] in *;
  destruct Sh as [res o ev wa Hras Hb
                 | r frs rest tail c o after wa Hras Hrc Hn Hop Hf Hl He Ha];
  [ destruct Hb | destruct He ].

Ltac run_cases w job old :=
  run_shape w job old;
  try match goal with
      | Ha : AfterLoop _ _ _ _ _ _ |- _ => inversion Ha; subst
      end.

Section AllPages.

Variable w : World.
Variable job : Job.




End AllPages.

(** ** The text of the output file *)

Lemma pages_text_blocks (i : nat) (rs : list CompletedProcess) :
  pages_text i rs =
  join (map block (filter exit_ok (combine (seq (i + 1) (List.length rs)) rs))).
Proof.
  revert i. induction rs as [|r rs IH]; intro i; [reflexivity|].
  cbn [pages_text List.length seq combine filter].
  rewrite IH.
  replace (exit_ok (i + 1, r)) with (returncode r =? 0)%Z by reflexivity.
  unfold page_block.
  destruct (returncode r =? 0)%Z; cbn [map join];
    reflexivity.
Qed.





(** ** What the loop writes and warns about *)

Section LoopOutput.

Variable w : World.
Variable job : Job.

Lemma written_pages i frs :
  written (pages_events w job i frs) =
  flat_map block_pieces
    (filter exit_ok
       (combine (seq (i + 1) (List.length frs)) (map snd frs))).
Proof.
  revert i. induction frs as [|[f r] frs IH]; intro i; [reflexivity|].
  cbn [pages_events List.length seq map combine filter snd].
  rewrite written_app, IH.
  replace (exit_ok (i + 1, r)) with (returncode r =? 0)%Z by reflexivity.
  unfold page_events. rewrite written_app.
  destruct (returncode r =? 0)%Z; reflexivity.
Qed.


Lemma join_block_pieces (l : list (nat * CompletedProcess)) :
  join (flat_map block_pieces l) = join (map block l).
Proof.
  induction l as [|ir l IH]; [reflexivity|].
  cbn [map join flat_map block_pieces app]. rewrite IH.
  unfold block. now rewrite append_assoc.
Qed.

(** The output file is the concatenation of what the loop wrote. *)
Lemma join_written_pages frs :
  join (written (pages_events w job 0 frs)) = pages_text 0 (map snd frs).
Proof.
  rewrite written_pages, pages_text_blocks, join_block_pieces.
  now rewrite length_map.
Qed.

Lemma after_loop_quiet c o after wa :
  AfterLoop w job c o after wa ->
  written after = [] /\ logged WARNING after = [] /\ ocr_runs after = []
  /\ polls after = [] /\ raster_runs after = [].
Proof. destruct 1; repeat split; reflexivity. Qed.

End LoopOutput.



(** ** Selecting one page among the numbered ones *)

Section OnePage.

Context {A : Type}.




End OnePage.



(** ** Cancellation *)

Lemma in_polls (p : PollPoint) (b : bool) (tr : list Event) :
  In (Polled p b) tr <-> In (p, b) (polls tr).
Proof.
  induction tr as [|e tr IH]; simpl; [tauto|].
  destruct e; simpl; rewrite <- IH;
    try (split; [intros [H|H]; [discriminate | exact H]
                | intro H; right; exact H]).
  split; (intros [H|H]; [left; inversion H; reflexivity | right; exact H]).
Qed.

Section Cancellation.

Variable w : World.
Variable job : Job.

Lemma pages_text_recognized i frs :
  launched w job frs ->
  pages_text i (map snd frs) = recognized_text w job (i + 1) (map fst frs).
Proof.
  intro H. revert i. induction H as [|[f r] frs Hf _ IH]; intro i;
    [reflexivity|].
  cbn [map fst snd pages_text recognized_text]. unfold result_block.
  cbn [fst snd] in Hf. rewrite Hf, IH. reflexivity.
Qed.

Lemma firstn_map_fst {A B} (l : list (A * B)) (rest : list A) :
  firstn (List.length l) (map fst l ++ rest) = map fst l.
Proof.
  rewrite <- (length_map fst l), firstn_app, Nat.sub_diag, firstn_all.
  simpl. now rewrite app_nil_r.
Qed.

End Cancellation.

(** C3.  If the check at the top of the iteration for page [k] finds
    the cancellation flag set, the job ends [Cancelled]; the OCR tool
    has been run on pages [1..k-1] and on no other page, so neither on
    page [k] nor on any later one; and the output file holds exactly
    the blocks of the recognised pages among [1..k-1]: what was written
    before is kept, nothing is rolled back. *)
Theorem cancelled_before_page
        (w : World) (job : Job) (old : option string) (k : nat) :
  1 <= k ->
  In (Polled (PageTop (k - 1)) true) (events (snd (run_job w job old))) ->
  fst (run_job w job old) = Cancelled
  /\ k <= total_pages w
  /\ map fst (ocr_runs (events (snd (run_job w job old))))
     = map (ocr_cmd w job) (firstn (k - 1) (image_files w))
  /\ output_file (snd (run_job w job old))
     = Some (recognized_text w job 1 (firstn (k - 1) (image_files w)))
  /\ output_file (snd (run_job w job old))
     = Some (join (written (events (snd (run_job w job old))))).
Proof.
  intros Hk Hin. apply in_polls in Hin. revert Hin.
  run_shape w job old; cbn [events output_file];
    rewrite ?polls_app, ?polls_pages;
    try (destruct (after_loop_quiet w job _ _ _ _ Ha)
          as (Hw & _ & Ho & Hp & _); rewrite Hp);
    simpl; rewrite ?in_app_iff, ?in_map_iff; simpl; intro Hin;
    repeat match goal with
           | H : _ \/ _ |- _ => destruct H
           | H : exists _, _ |- _ => destruct H
           | H : _ /\ _ |- _ => destruct H
           end;
    try discriminate; try contradiction.
  injection H as Hlen.
  assert (Hfirst : firstn (k - 1) (image_files w) = map fst frs).
  { rewrite Hf, <- Hlen. apply firstn_map_fst. }
  inversion Ha; subst o after wa.
  split; [reflexivity|].
  split; [unfold total_pages; rewrite Hf, length_app, length_map; simpl; lia|].
  split; [|split].
  - rewrite ocr_runs_app, ocr_runs_pages, Hfirst. simpl.
    rewrite app_nil_r, !map_map. reflexivity.
  - rewrite Hfirst. f_equal. now apply pages_text_recognized.
  - f_equal. rewrite written_app. simpl.
    rewrite app_nil_r. symmetry. apply join_written_pages.
Qed.

Lemma cancelled_before_page_witness :
  fst (run_job (Scenario.world Scenario.all_pages None (Scenario.from 12))
               (Scenario.job true) (Some "stale")) = Cancelled.
Proof.
  apply (cancelled_before_page
           (Scenario.world Scenario.all_pages None (Scenario.from 12))
           (Scenario.job true) (Some "stale") 2).
  - lia.
  - vm_compute. do 18 right. left. reflexivity.
Defined.

(** ** Progress values *)

Section ProgressArith.

Local Open Scope Q_scope.


Lemma inject_nat_le (i j : nat) :
  (i <= j)%nat -> inject_Z (Z.of_nat i) <= inject_Z (Z.of_nat j).
Proof. intro H. rewrite <- Zle_Qle. now apply Nat2Z.inj_le. Qed.



Lemma page_progress_upper (i n : nat) :
  (0 < n)%nat -> (i <= n)%nat -> page_progress i n <= 90.
Proof.
  intros Hn Hi. unfold page_progress.
  apply Qle_trans with (20 + 70); [|discriminate].
  apply Qplus_le_r. apply Qle_shift_div_r.
  - rewrite <- (Zlt_Qlt 0). lia.
  - apply Qmult_le_l; [reflexivity | now apply inject_nat_le].
Qed.



End ProgressArith.

Section ProgressOfRun.

Variable w : World.
Variable job : Job.



End ProgressOfRun.


(** ** Cleanup *)

(** C5, as stated, fails: a job cancelled at the top of its second
    page ends [Cancelled] with cleanup requested, and the temporary
    directory is still there with all its entries. *)
Lemma cleanup_skipped_on_cancel :
  ~ cleanup_as_specified
      (Scenario.world Scenario.all_pages None (Scenario.from 12))
      (Scenario.job true) None.
Proof.
  unfold cleanup_as_specified. intro H.
  destruct H as [H _]; [right; reflexivity|].
  specialize (H eq_refl). vm_compute in H. discriminate.
Qed.

(** C5, amended.  At the end of a [Completed] job the temporary
    directory is gone if cleanup was requested and is there with all
    its entries otherwise; at the end of a [Cancelled] job it is there
    with all its entries whatever was requested: the two [return]
    statements leave before the cleanup step. *)
Theorem work_area_at_job_end
        (w : World) (job : Job) (old : option string) :
  let o := fst (run_job w job old) in
  let s := snd (run_job w job old) in
  (o = Completed ->
   (cleanup_images job = true -> work_area s = None)
   /\ (cleanup_images job = false -> work_area s = Some (raster_output w)))
  /\ (o = Cancelled -> work_area s = Some (raster_output w)).
Proof.
  cbv zeta.
  run_cases w job old; cbn [work_area]; split; intros Ho;
    try discriminate; try reflexivity;
    split; intro Hc; try reflexivity; congruence.
Qed.

Section PageEvents.

Variable w : World.
Variable job : Job.

Lemma pages_events_kind i frs e :
  In e (pages_events w job i frs) -> page_event e.
Proof.
  revert i. induction frs as [|[f r] frs IH]; intros i H; [destruct H|].
  cbn [pages_events] in H. apply in_app_iff in H. destruct H as [H|H].
  - unfold page_events in H. apply in_app_iff in H.
    destruct H as [H|H]; [|destruct (returncode r =? 0)%Z];
      simpl in H; repeat destruct H as [H|H]; subst; simpl; trivial;
      contradiction.
  - exact (IH _ H).
Qed.

Lemma logged_success_pages i frs :
  logged SUCCESS (pages_events w job i frs) = [].
Proof.
  revert i. induction frs as [|[f r] frs IH]; intro i; [reflexivity|].
  cbn [pages_events]. rewrite logged_app, IH. unfold page_events.
  destruct (returncode r =? 0)%Z; reflexivity.
Qed.

Lemma logged_error_pages i frs :
  logged ERROR (pages_events w job i frs) = [].
Proof.
  revert i. induction frs as [|[f r] frs IH]; intro i; [reflexivity|].
  cbn [pages_events]. rewrite logged_app, IH. unfold page_events.
  destruct (returncode r =? 0)%Z; reflexivity.
Qed.

End PageEvents.

(** C6, as stated, fails: with all three pages recognised and a
    deletion that fails, no warning is logged, the job ends in a fatal
    error and neither progress 100 nor the final success line appears. *)
Lemma cleanup_failure_is_fatal_example :
  ~ cleanup_failure_as_specified
      (Scenario.world Scenario.all_pages (Some "Permission denied")
                      Scenario.never)
      (Scenario.job true) None.
Proof.
  unfold cleanup_failure_as_specified. intro H.
  destruct H as (_ & H & _).
  - vm_compute. repeat (first [left; reflexivity | right]).
  - vm_compute in H. discriminate.
Qed.

(** C6, amended.  When the deletion of the temporary directory fails,
    the exception reaches the general handler of the job: the job ends
    in a fatal error carrying the exception text, the failure is logged
    as an Error (not as a Warning), the trace ends with the handler's
    events and the UI reset, no progress value above 95 is given (so
    never 100), the final success lines are not logged, and the text
    already written stays in the output file. *)
Theorem cleanup_failure_is_fatal
        (w : World) (job : Job) (old : option string) :
  let o := fst (run_job w job old) in
  let s := snd (run_job w job old) in
  In (Rmtree (temp_name w) false) (events s) ->
  exists e,
    rmtree_error w = Some e
    /\ o = FatalError e
    /\ (exists pre,
          events s = pre ++ cleanup_failed w ++ on_error e ++ epilogue)
    /\ logged ERROR (events s) = [("Error: " ++ e)%string]
    /\ logged SUCCESS (events s)
       = [("Generated " ++ Py.str (total_pages w) ++ " images from PDF")%string]
    /\ Forall (fun p => (p <= 95)%Q) (progress_values (events s))
    /\ output_file s = Some (join (written (events s))).
Proof.
  cbv zeta.
  run_cases w job old; cbn [events output_file]; intros Hin;
    repeat (rewrite in_app_iff in Hin; simpl in Hin);
    repeat match goal with
           | H : _ \/ _ |- _ => destruct H
           | H : In _ (pages_events _ _ _ _) |- _ =>
               apply pages_events_kind in H; simpl in H
           end;
    try discriminate; try contradiction.
  exists e. split; [assumption|]. split; [reflexivity|].
  split; [|split; [|split; [|split]]].
  - eexists. rewrite !app_assoc. repeat f_equal.
  - rewrite !logged_app, logged_error_pages. reflexivity.
  - rewrite !logged_app, logged_success_pages. reflexivity.
  - assert (HN : total_pages w = List.length frs).
    { unfold total_pages. now rewrite Hf, app_nil_r, length_map. }
    rewrite !progress_values_app, progress_values_pages. simpl.
    constructor; [discriminate|].
    apply Forall_app. split; [|repeat constructor; discriminate].
    apply Forall_forall. intros q Hq.
    apply in_map_iff in Hq. destruct Hq as (j & <- & Hj).
    apply in_seq in Hj.
    eapply Qle_trans; [apply page_progress_upper; lia | discriminate].
  - f_equal. rewrite !written_app. simpl.
    rewrite app_nil_r. symmetry. apply join_written_pages.
Qed.

Lemma cleanup_failure_is_fatal_witness :
  fst (run_job (Scenario.world Scenario.all_pages (Some "Permission denied")
                               Scenario.never)
               (Scenario.job true) None)
  = FatalError "Permission denied".
Proof.
  destruct (cleanup_failure_is_fatal
              (Scenario.world Scenario.all_pages (Some "Permission denied")
                              Scenario.never)
              (Scenario.job true) None) as (e & He & Ho & _).
  - vm_compute. repeat (first [left; reflexivity | right]).
  - vm_compute in He. injection He as <-. exact Ho.
Defined.

(** ** Where the cancellation flag is read *)

(** C7, as stated, fails: with the flag set from the very start, the
    rasterizer is invoked all the same. *)
Lemma rasterizer_runs_despite_flag :
  ~ early_poll_as_specified
      (Scenario.world Scenario.all_pages None Scenario.always)
      (Scenario.job true) None.
Proof.
  unfold early_poll_as_specified. intro H.
  specialize (H eq_refl). vm_compute in H. discriminate.
Qed.

(** C7, amended.  In every job the rasterizer is invoked exactly once,
    whatever the value of the flag, and no reading of the flag precedes
    it.  The flag is read once after the rasterizer has returned with
    status zero (and only then), and once at the top of each per-page
    iteration: every page on which the OCR tool is started was preceded
    by a reading that found the flag clear.  A reading that finds the
    flag set after the conversion leaves the job [Cancelled] without
    any OCR invocation. *)
Theorem flag_poll_points
        (w : World) (job : Job) (old : option string) :
  let o := fst (run_job w job old) in
  let s := snd (run_job w job old) in
  let res := run w (pdftoppm_cmd job (temp_name w)) in
  (exists rest, events s = prologue w job res ++ rest)
  /\ raster_runs (events s) = [(pdftoppm_cmd job (temp_name w), res)]
  /\ (polls (events s) = [] <-> recognized res = false)
  /\ (polls (events s) = []
      \/ polls (events s) = [(AfterConversion, true)]
      \/ exists last,
           polls (events s)
           = (AfterConversion, false)
             :: map (fun j => (PageTop j, false)) (seq 0 (pages_started s))
             ++ last
           /\ (last = [] \/ last = [(PageTop (pages_started s), true)]))
  /\ (In (Polled AfterConversion true) (events s) ->
      ocr_runs (events s) = [] /\ o = Cancelled).
Proof.
  cbv zeta. unfold pages_started.
  run_cases w job old; cbn [events]; rewrite Hras.
  all: split; [eexists; rewrite <- ?app_assoc; reflexivity|].
  all: rewrite ?raster_runs_app, ?polls_app, ?ocr_runs_app,
         ?raster_runs_pages, ?polls_pages, ?ocr_runs_pages;
       simpl; rewrite ?length_app, ?length_map; simpl;
       rewrite ?Nat.add_0_r, ?app_nil_r.
  all: split; [reflexivity|].
  all: split;
    [ split; intro Hx; try reflexivity; try discriminate;
      try (apply Z.eqb_neq; assumption);
      try match goal with
          | Hz : returncode _ = 0%Z |- _ => rewrite Hz in Hx; discriminate
          end
    | ].
  all: split;
    [ try (left; reflexivity); try (right; left; reflexivity); right; right
    | rewrite ?in_app_iff; simpl; intro Hin;
      repeat match goal with
             | H : _ \/ _ |- _ => destruct H
             | H : In _ (pages_events _ _ _ _) |- _ =>
                 apply pages_events_kind in H; simpl in H
             end;
      try discriminate; try contradiction; try (split; reflexivity) ].
  all: try (exists []; rewrite ?app_nil_r; split; [reflexivity | now left]).
  all: try (eexists; split; [reflexivity | now right]).
  exists []. rewrite app_nil_r, Nat.add_1_r, seq_S, map_app.
  split; [reflexivity | now left].
Qed.

(** ** No page image *)

(** C8, as stated, fails: when the flag is found set after a
    successful conversion that left no image, the job ends [Cancelled],
    not in a fatal error; the directory is never listed. *)
Lemma no_pages_but_cancelled :
  ~ no_pages_as_specified (Scenario.blank Scenario.always)
      (Scenario.job true) None.
Proof.
  unfold no_pages_as_specified. intro H.
  destruct (H (mkCompleted 0 "" "") eq_refl eq_refl eq_refl) as [H1 _].
  vm_compute in H1. discriminate.
Qed.

(** C8, amended.  When the rasterizer exits with status zero, the flag
    is found clear by the check that follows, and the temporary
    directory holds no [.png] entry, the job fails with the fatal error
    "No images generated from PDF": the error is logged, the OCR tool
    is never invoked and the output file is not touched. *)
Theorem no_pages_is_fatal
        (w : World) (job : Job) (old : option string)
        (raster : CompletedProcess) :
  let o := fst (run_job w job old) in
  let s := snd (run_job w job old) in
  run w (pdftoppm_cmd job (temp_name w)) = Launched raster ->
  returncode raster = 0%Z ->
  In (Polled AfterConversion false) (events s) ->
  filter is_png (raster_output w) = [] ->
  o = FatalError "No images generated from PDF"
  /\ ocr_runs (events s) = []
  /\ logged ERROR (events s) = ["Error: No images generated from PDF"]
  /\ ~ In (Opened (output_path job) true) (events s)
  /\ output_file s = old.
Proof.
  cbv zeta. intros Hrun Hzero Hin Hnone.
  assert (HN : total_pages w = 0).
  { unfold total_pages, image_files. now rewrite Hnone. }
  revert Hin.
  run_cases w job old; cbn [events output_file]; intro Hin;
    try congruence; try contradiction.
  - simpl in Hin. repeat destruct Hin as [Hin|Hin];
      try discriminate; contradiction.
  - repeat split; try reflexivity.
    simpl. intro Hop. repeat destruct Hop as [Hop|Hop];
      try discriminate; contradiction.
Qed.

Lemma no_pages_is_fatal_witness :
  fst (run_job (Scenario.blank Scenario.never) (Scenario.job true) None)
  = FatalError "No images generated from PDF".
Proof.
  apply (no_pages_is_fatal (Scenario.blank Scenario.never)
           (Scenario.job true) None (mkCompleted 0 "" "")).
  - reflexivity.
  - reflexivity.
  - vm_compute. repeat (first [left; reflexivity | right]).
  - reflexivity.
Defined.

(** ** The output file of the recognition phase *)

Lemma pages_text_none (i : nat) (rs : list CompletedProcess) :
  Forall (fun r => (returncode r =? 0)%Z = false) rs -> pages_text i rs = "".
Proof.
  intro H. revert i. induction H as [|r rs Hr _ IH]; intro i; [reflexivity|].
  cbn [pages_text]. unfold page_block. now rewrite Hr, IH.
Qed.

(** C9.  In every job that enters the per-page loop (its first check
    of the flag takes place), the output file has been opened for
    writing, and thereby emptied, before any OCR invocation and before
    any write; at the end of the job it exists and holds exactly what
    this job wrote, whatever was at that path before.  Consequently, if
    no OCR invocation of the job exited with status zero, the file
    exists at the end and is empty. *)
Theorem output_truncated_before_recognition
        (w : World) (job : Job) (old : option string) (b : bool) :
  let s := snd (run_job w job old) in
  In (Polled (PageTop 0) b) (events s) ->
  (exists pre post,
      events s = pre ++ Opened (output_path job) true :: post
      /\ ocr_runs pre = [] /\ written pre = [])
  /\ output_file s = Some (join (written (events s)))
  /\ (Forall (fun cr => recognized (snd cr) = false) (ocr_runs (events s)) ->
      output_file s = Some "").
Proof.
  cbv zeta. intro Hin. apply in_polls in Hin. revert Hin.
  run_shape w job old; cbn [events output_file].
  1-5: simpl; intro Hin; repeat destruct Hin as [Hin|Hin];
       try discriminate; contradiction.
  all: intros _;
    destruct (after_loop_quiet w job _ _ _ _ Ha) as (Hw & _ & Ho & _);
    (split; [exists (prologue w job (Launched r) ++ counted w ++ announce w);
             eexists; split;
             [rewrite <- !app_assoc; reflexivity | split; reflexivity]|]);
    rewrite !written_app, !ocr_runs_app, ocr_runs_pages, Hw, Ho; simpl;
    rewrite ?app_nil_r;
    (split; [f_equal; symmetry; apply join_written_pages|]);
    intro Hall; f_equal; apply pages_text_none;
    try (apply Forall_app in Hall; destruct Hall as [Hall _]);
    clear - Hall; induction frs as [|[f0 r0] frs IH]; constructor;
    inversion Hall; subst; auto.
Qed.

Lemma output_truncated_before_recognition_witness :
  output_file
    (snd (run_job (Scenario.world [] None Scenario.never)
                  (Scenario.job false) (Some "stale")))
  = Some "".
Proof.
  apply (output_truncated_before_recognition
           (Scenario.world [] None Scenario.never)
           (Scenario.job false) (Some "stale") false).
  - vm_compute. repeat (first [left; reflexivity | right]).
  - vm_compute. repeat constructor.
Defined.

(** ** Sorting the page images *)


Lemma string_compare_refl (s : string) : String.compare s s = Eq.
Proof.
  induction s as [|a s IH]; simpl; [reflexivity|].
  replace (Ascii.compare a a) with Eq; [exact IH|].
  symmetry. unfold Ascii.compare. apply N.compare_refl.
Qed.


Lemma insert_perm (x : string) (l : list string) :
  Permutation (Py.insert x l) (x :: l).
Proof.
  induction l as [|y l IH]; simpl; [reflexivity|].
  destruct (String.leb x y); [reflexivity|].
  rewrite IH. apply perm_swap.
Qed.

Lemma sorted_perm (l : list string) : Permutation (Py.sorted l) l.
Proof.
  induction l as [|x l IH]; simpl; [reflexivity|].
  rewrite insert_perm. now constructor.
Qed.






(** ** The listing order is not observable *)


Section Relisting.

Variable w : World.
Variable job : Job.
Variable listing : list string.



End Relisting.

Section RelistingRun.

Variable w : World.
Variable job : Job.
Variable listing : list string.


End RelistingRun.

(** ** Page numbers *)

Section PageNumbers.

Variable w : World.
Variable job : Job.






End PageNumbers.


(** Lexicographic order, not the number in the name: next to
    [page-1.png] and [page-2.png], the image [page-10.png] is page 2. *)
Lemma page_10_is_page_2 :
  let w := mkWorld "/tmp/ocr_x"
             (Scenario.tools [("/tmp/ocr_x/page-10.png", "ten")])
             ["page-2.png"; "page-10.png"; "page-1.png"]
             None None Scenario.never in
  image_files w = ["page-1.png"; "page-10.png"; "page-2.png"]
  /\ output_file (snd (run_job w (Scenario.job false) None))
     = Some (block (2, mkCompleted 0 "ten" "")).
Proof. split; reflexivity. Qed.

(** * Further properties of the worker *)

(** ** More readings of the loop's trace *)

Lemma flat_map_none {A B} (f : A -> list B) (l : list A) :
  (forall a, In a l -> f a = []) -> flat_map f l = [].
Proof.
  induction l as [|a l IH]; intro H; simpl; [reflexivity|].
  rewrite (H a) by now left. apply IH. intros b Hb. apply H. now right.
Qed.

Section QuietPages.

Variable w : World.
Variable job : Job.

Lemma callbacks_pages i frs : callbacks (pages_events w job i frs) = [].
Proof.
  apply flat_map_none. intros e He.
  apply pages_events_kind in He. destruct e; simpl in *; tauto.
Qed.

Lemma deletions_pages i frs : deletions (pages_events w job i frs) = [].
Proof.
  apply flat_map_none. intros e He.
  apply pages_events_kind in He. destruct e; simpl in *; tauto.
Qed.

Lemma listings_pages i frs : listings (pages_events w job i frs) = [].
Proof.
  apply flat_map_none. intros e He.
  apply pages_events_kind in He. destruct e; simpl in *; tauto.
Qed.

Lemma view_enabled_pages i frs :
  view_enabled (pages_events w job i frs) = false.
Proof.
  unfold view_enabled.
  destruct (existsb _ _) eqn:H; [|reflexivity].
  apply existsb_exists in H. destruct H as (e & He & Hv).
  apply pages_events_kind in He. destruct e; simpl in *; try discriminate.
  contradiction.
Qed.

Lemma file_ops_pages i frs :
  file_ops (pages_events w job i frs)
  = map Wrote (written (pages_events w job i frs)).
Proof.
  revert i. induction frs as [|[f r] frs IH]; intro i; [reflexivity|].
  cbn [pages_events]. unfold file_ops in *.
  rewrite filter_app, written_app, map_app, IH. f_equal.
  unfold page_events. destruct (returncode r =? 0)%Z; reflexivity.
Qed.

End QuietPages.

Lemma callbacks_app a b : callbacks (a ++ b) = callbacks a ++ callbacks b.
Proof. apply flat_map_app. Qed.

Lemma deletions_app a b : deletions (a ++ b) = deletions a ++ deletions b.
Proof. apply flat_map_app. Qed.

Lemma listings_app a b : listings (a ++ b) = listings a ++ listings b.
Proof. apply flat_map_app. Qed.

Lemma file_ops_app a b : file_ops (a ++ b) = file_ops a ++ file_ops b.
Proof. apply filter_app. Qed.

Lemma view_enabled_app a b :
  view_enabled (a ++ b) = view_enabled a || view_enabled b.
Proof. apply existsb_app. Qed.

Ltac read_trace :=
  rewrite ?ocr_runs_app, ?raster_runs_app, ?polls_app, ?written_app,
    ?logged_app, ?callbacks_app, ?deletions_app, ?listings_app,
    ?file_ops_app, ?view_enabled_app, ?progress_values_app,
    ?ocr_runs_pages, ?raster_runs_pages, ?polls_pages,
    ?callbacks_pages, ?deletions_pages, ?listings_pages,
    ?file_ops_pages, ?view_enabled_pages, ?logged_error_pages,
    ?logged_success_pages, ?progress_values_pages.

(** ** Failures of the conversion step *)

(** X1.  When the rasterizer exits with a non-zero status, the job
    ends in the fatal error "PDF conversion failed: " followed by the
    tool's error output; the trace is the prologue, the error handler
    and the UI reset and nothing else (the flag is not read, the
    directory is not listed, the OCR tool is not run), the file at the
    output path is left as it was and the temporary directory stays. *)
Theorem conversion_failure_is_fatal
        (w : World) (job : Job) (old : option string)
        (raster : CompletedProcess) :
  run w (pdftoppm_cmd job (temp_name w)) = Launched raster ->
  returncode raster <> 0%Z ->
  let msg := ("PDF conversion failed: " ++ stderr raster)%string in
  fst (run_job w job old) = FatalError msg
  /\ events (snd (run_job w job old))
     = prologue w job (Launched raster) ++ on_error msg ++ epilogue
  /\ output_file (snd (run_job w job old)) = old
  /\ work_area (snd (run_job w job old)) = Some (raster_output w).
Proof.
  intros Hrun Hcode. cbv zeta.
  run_cases w job old; try congruence;
    rewrite Hras in Hrun; injection Hrun as <-;
    try contradiction.
  repeat split; reflexivity.
Qed.

Lemma conversion_failure_is_fatal_witness :
  fst (run_job (Faults.raster_exit 1 "Syntax Error: broken xref")
               (Scenario.job true) (Some "stale"))
  = FatalError "PDF conversion failed: Syntax Error: broken xref".
Proof.
  apply (conversion_failure_is_fatal
           (Faults.raster_exit 1 "Syntax Error: broken xref")
           (Scenario.job true) (Some "stale")
           (mkCompleted 1 "" "Syntax Error: broken xref")).
  - reflexivity.
  - discriminate.
Defined.

(** X2.  When the rasterizer cannot be launched, the job ends in the
    fatal error that [subprocess.run] raised; as for a failed
    conversion nothing else is attempted, the output file is left as
    it was, and the temporary directory stays, empty. *)
Theorem conversion_launch_failure_is_fatal
        (w : World) (job : Job) (old : option string) (err : string) :
  run w (pdftoppm_cmd job (temp_name w)) = LaunchFailure err ->
  fst (run_job w job old) = FatalError err
  /\ events (snd (run_job w job old))
     = prologue w job (LaunchFailure err) ++ on_error err ++ epilogue
  /\ output_file (snd (run_job w job old)) = old
  /\ work_area (snd (run_job w job old)) = Some [].
Proof.
  intros Hrun.
  run_cases w job old; try congruence.
  rewrite Hras in Hrun. injection Hrun as <-.
  repeat split; reflexivity.
Qed.

Lemma conversion_launch_failure_is_fatal_witness :
  fst (run_job Faults.raster_missing (Scenario.job true) None)
  = FatalError "pdftoppm not found".
Proof.
  apply (conversion_launch_failure_is_fatal
           Faults.raster_missing (Scenario.job true) None
           "pdftoppm not found").
  reflexivity.
Defined.

(** ** The OCR tool cannot be launched *)

(** X3.  When [subprocess.run] raises for the OCR tool on some page,
    the job ends in the fatal error it raised: the page is the one
    after the pages processed so far, no later page is attempted, the
    output file is closed and keeps the blocks of the pages recognised
    before, the error is logged, and the temporary directory is not
    deleted even when cleanup was requested. *)
Theorem ocr_launch_failure_is_fatal
        (w : World) (job : Job) (old : option string)
        (cmd : list string) (err : string) :
  In (cmd, LaunchFailure err) (ocr_runs (events (snd (run_job w job old)))) ->
  fst (run_job w job old) = FatalError err
  /\ (exists k img,
        nth_error (image_files w) k = Some img
        /\ cmd = ocr_cmd w job img
        /\ pages_started (snd (run_job w job old)) = S k
        /\ output_file (snd (run_job w job old))
           = Some (recognized_text w job 1 (firstn k (image_files w))))
  /\ output_file (snd (run_job w job old))
     = Some (join (written (events (snd (run_job w job old)))))
  /\ In Closed (events (snd (run_job w job old)))
  /\ deletions (events (snd (run_job w job old))) = []
  /\ work_area (snd (run_job w job old)) = Some (raster_output w)
  /\ logged ERROR (events (snd (run_job w job old)))
     = [("Error: " ++ err)%string].
Proof.
  unfold pages_started. intro Hin. revert Hin.
  run_cases w job old; cbn [events output_file work_area]; read_trace;
    simpl; rewrite ?app_nil_r; intro Hin;
    try contradiction;
    try (apply in_map_iff in Hin; destruct Hin as (fr & Hfr & _);
         discriminate).
  apply in_app_iff in Hin. destruct Hin as [Hin|[Hin|[]]].
  { apply in_map_iff in Hin. destruct Hin as (fr & Hfr & _). discriminate. }
  injection Hin as <- <-.
  split; [reflexivity|]. split; [|split; [|split; [|split; [|split]]]].
  - exists (List.length frs), f. split; [|split; [|split]].
    + rewrite Hf, nth_error_app2 by (rewrite length_map; lia).
      rewrite length_map, Nat.sub_diag. reflexivity.
    + reflexivity.
    + rewrite length_app, length_map. simpl. lia.
    + rewrite Hf, firstn_map_fst. f_equal. now apply pages_text_recognized.
  - f_equal. symmetry. apply join_written_pages.
  - rewrite !in_app_iff. simpl. tauto.
  - reflexivity.
  - reflexivity.
  - reflexivity.
Qed.

Lemma ocr_launch_failure_is_fatal_witness :
  output_file
    (snd (run_job (Faults.world "/tmp/ocr_x/page-2.png")
                  (Scenario.job true) (Some "stale")))
  = Some (block (1, mkCompleted 0 "ok" "")).
Proof.
  destruct (ocr_launch_failure_is_fatal
              (Faults.world "/tmp/ocr_x/page-2.png")
              (Scenario.job true) (Some "stale")
              ["tesseract"; "/tmp/ocr_x/page-2.png"; "stdout"; "-l"; "eng"]
              "[Errno 2] No such file or directory: 'tesseract'")
    as (_ & _ & Hout & _).
  - vm_compute. right. left. reflexivity.
  - rewrite Hout. reflexivity.
Defined.

(** ** How every run ends *)

(** X4.  Whatever happens, the last effect of [process_pdf] is to hand
    [reset_ui] to the main loop, and it does so exactly once.  Before
    that it hands over exactly one dialog when the job ends
    [Completed] (the success notice naming the output path) or in a
    fatal error (the error box with the exception text), and none when
    the job is cancelled; an Error line is logged exactly for a fatal
    error. *)
Theorem dialogs_and_reset
        (w : World) (job : Job) (old : option string) :
  let o := fst (run_job w job old) in
  let s := snd (run_job w job old) in
  (exists pre, events s = pre ++ [After ResetUI])
  /\ callbacks (events s)
     = match o with
       | Completed =>
           [ShowInfo "Success"
              ("OCR processing completed successfully!" ++ nl ++ nl
               ++ "Text extracted and saved to:" ++ nl
               ++ output_path job)%string;
            ResetUI]
       | Cancelled => [ResetUI]
       | FatalError e =>
           [ShowError "Error" ("An error occurred:" ++ nl ++ e)%string;
            ResetUI]
       end
  /\ logged ERROR (events s)
     = match o with
       | FatalError e => [("Error: " ++ e)%string]
       | _ => []
       end.
Proof.
  cbv zeta.
  run_cases w job old; cbn [events].
  all: split;
    [ eexists; unfold epilogue; rewrite ?app_assoc; reflexivity | ].
  all: read_trace; simpl; rewrite ?app_nil_r; split; reflexivity.
Qed.

(** X5.  The output file is handled like a [with] block on every path:
    either it is never opened, or opening fails and nothing follows,
    or it is opened, written to, and closed exactly once after the last
    write, also when the job is cancelled or an exception escapes the
    loop. *)
Theorem output_file_always_closed
        (w : World) (job : Job) (old : option string) :
  let s := snd (run_job w job old) in
  file_ops (events s) = []
  \/ file_ops (events s) = [Opened (output_path job) false]
  \/ file_ops (events s)
     = Opened (output_path job) true
       :: map Wrote (written (events s)) ++ [Closed].
Proof.
  cbv zeta.
  run_cases w job old; cbn [events]; read_trace; simpl;
    rewrite ?app_nil_r; auto.
Qed.

(** X6.  A job that does not get to open the output file (conversion
    failed, cancelled after the conversion, no page image, or the file
    cannot be opened) leaves whatever was at the output path exactly as
    it was, and writes nothing. *)
Theorem output_untouched_unless_opened
        (w : World) (job : Job) (old : option string) :
  let s := snd (run_job w job old) in
  ~ In (Opened (output_path job) true) (events s) ->
  output_file s = old /\ written (events s) = [].
Proof.
  cbv zeta.
  run_cases w job old; cbn [events output_file]; intro Hno;
    try (split; reflexivity).
  all: exfalso; apply Hno; rewrite !in_app_iff; simpl; tauto.
Qed.

Lemma output_untouched_unless_opened_witness :
  output_file (snd (run_job Faults.unwritable (Scenario.job true)
                            (Some "stale")))
  = Some "stale".
Proof.
  apply (output_untouched_unless_opened
           Faults.unwritable (Scenario.job true) (Some "stale")).
  vm_compute. intro H.
  repeat (destruct H as [H|H]; [discriminate|]). exact H.
Defined.

(** X7.  The button that opens the result is enabled exactly when the
    job ends [Completed]; a completed job's trace ends with the
    completion steps followed by the UI reset; and a job that does not
    complete never shows a progress value above 95. *)
Theorem completed_iff_view_enabled
        (w : World) (job : Job) (old : option string) :
  let o := fst (run_job w job old) in
  let s := snd (run_job w job old) in
  (o = Completed <-> view_enabled (events s) = true)
  /\ (o = Completed ->
      exists pre, events s = pre ++ completion job ++ epilogue)
  /\ (o <> Completed ->
      Forall (fun p => (p <= 95)%Q) (progress_values (events s))).
Proof.
  cbv zeta.
  assert (Hpages : forall n m,
             0 < n -> m <= n ->
             Forall (fun p => (p <= 95)%Q)
                    (map (fun j => page_progress j n) (seq 0 m))).
  { intros n m Hn Hm. apply Forall_forall. intros q Hq.
    apply in_map_iff in Hq. destruct Hq as (j & <- & Hj).
    apply in_seq in Hj.
    eapply Qle_trans; [apply page_progress_upper; lia | discriminate]. }
  run_cases w job old; cbn [events].
  all: try assert (HN : total_pages w = List.length (image_files w))
         by reflexivity;
       try (rewrite Hf, length_app, length_map in HN; simpl in HN).
  all: split;
    [ read_trace; simpl; rewrite ?orb_false_r, ?orb_true_r;
      split; intro; try reflexivity; discriminate | ].
  all: split;
    [ intro Ho; try discriminate;
      eexists; rewrite ?app_assoc; reflexivity | ].
  all: intro Ho; try contradiction.
  all: read_trace; simpl; rewrite ?app_nil_r.
  all: constructor; [discriminate|].
  all: try (constructor; fail).
  all: rewrite ?Forall_app; repeat split;
    try (apply Hpages; lia);
    repeat constructor; try discriminate.
  eapply Qle_trans; [apply page_progress_upper; lia | discriminate].
Qed.

(** X8.  [shutil.rmtree] is never applied to anything but the
    temporary directory of the job, and at most once: only when cleanup
    was requested, no reading of the flag found it set, the OCR tool
    was started on every page, and the output file has been closed;
    nothing is written afterwards.  A cancelled job deletes nothing. *)
Theorem deletion_only_after_all_pages
        (w : World) (job : Job) (old : option string) :
  let o := fst (run_job w job old) in
  let s := snd (run_job w job old) in
  (deletions (events s) = []
   \/ exists ok pre post,
        deletions (events s) = [(temp_name w, ok)]
        /\ (ok = true <-> rmtree_error w = None)
        /\ cleanup_images job = true
        /\ pages_started s = total_pages w
        /\ Forall (fun pb => snd pb = false) (polls (events s))
        /\ events s = pre ++ Closed :: post
        /\ deletions pre = [] /\ file_ops post = [])
  /\ (cleanup_images job = false -> deletions (events s) = [])
  /\ (o = Cancelled -> deletions (events s) = []).
Proof.
  cbv zeta. unfold pages_started.
  run_cases w job old; cbn [events].
  all: try (split; [left; reflexivity | split; intros _; reflexivity]).
  all: try (split; [left; read_trace; reflexivity
                   | split; intros _; read_trace; reflexivity]).
  all: assert (HN : total_pages w = List.length (image_files w))
         by reflexivity;
       rewrite Hf, length_app, length_map in HN; simpl in HN.
  all: split; [right | split; intro Hx; try congruence; discriminate].
  - exists true,
      (prologue w job (Launched r) ++ counted w ++ announce w
       ++ [Opened (output_path job) true] ++ pages_events w job 0 frs),
      (cleaned w ++ completion job ++ epilogue).
    read_trace. simpl. rewrite ?app_nil_r, ?length_map.
    repeat split; auto; try lia.
    constructor; [reflexivity|].
    apply Forall_forall. intros pb Hpb.
    apply in_map_iff in Hpb. now destruct Hpb as (j & <- & _).
  - exists false,
      (prologue w job (Launched r) ++ counted w ++ announce w
       ++ [Opened (output_path job) true] ++ pages_events w job 0 frs),
      (cleanup_failed w ++ on_error e ++ epilogue).
    read_trace. simpl. rewrite ?app_nil_r, ?length_map.
    repeat split; auto; try lia; try congruence; try discriminate.
    constructor; [reflexivity|].
    apply Forall_forall. intros pb Hpb.
    apply in_map_iff in Hpb. now destruct Hpb as (j & <- & _).
Qed.

(** X9.  A job ends [Cancelled] exactly when one of its readings of
    the flag found it set; that reading is then the last one and all
    earlier ones found the flag clear.  So a flag set after the last
    reading (during the last page or the cleanup) cancels nothing. *)
Theorem cancelled_iff_flag_seen
        (w : World) (job : Job) (old : option string) :
  let o := fst (run_job w job old) in
  let s := snd (run_job w job old) in
  (o = Cancelled <-> exists p, In (Polled p true) (events s))
  /\ (o = Cancelled ->
      exists pre p,
        polls (events s) = pre ++ [(p, true)]
        /\ Forall (fun pb => snd pb = false) pre)
  /\ (o <> Cancelled ->
      Forall (fun pb => snd pb = false) (polls (events s))).
Proof.
  cbv zeta.
  assert (Hfalse : forall n,
             Forall (fun pb : PollPoint * bool => snd pb = false)
                    (map (fun j => (PageTop j, false)) (seq 0 n))).
  { intro n. apply Forall_forall. intros pb Hpb.
    apply in_map_iff in Hpb. now destruct Hpb as (j & <- & _). }
  run_cases w job old; cbn [events].
  all: split;
    [ split;
      [ intro Ho; try discriminate; eexists;
        rewrite !in_app_iff; simpl; eauto 20
      | intros [p Hp]; try reflexivity; exfalso; revert Hp;
        rewrite in_polls; read_trace; simpl;
        rewrite ?in_app_iff, ?in_map_iff; simpl; intro Hp;
        repeat match goal with
               | H : _ \/ _ |- _ => destruct H
               | H : exists _, _ |- _ => destruct H
               | H : _ /\ _ |- _ => destruct H
               end; try discriminate; try contradiction ]
    | ].
  all: split; [intro Ho; try discriminate | intro Ho; try contradiction].
  all: read_trace; simpl; rewrite ?app_nil_r.
  all: try (repeat constructor; fail).
  all: try (constructor; [reflexivity|]; rewrite ?Forall_app;
            repeat split; try apply Hfalse; repeat constructor; fail).
  - exists [], AfterConversion. split; [reflexivity | constructor].
  - exists ((AfterConversion, false)
            :: map (fun j => (PageTop j, false)) (seq 0 (List.length frs))),
      (PageTop (List.length frs)).
    split; [reflexivity|]. constructor; [reflexivity | apply Hfalse].
Qed.

(** * The GUI thread *)

Section GuiFacts.

Import Gui.

Variable desk : Desk.

Lemma same_widgets_refl (a : App) : same_widgets a a.
Proof. unfold same_widgets. tauto. Qed.

Lemma same_widgets_trans (a b c : App) :
  same_widgets a b -> same_widgets b c -> same_widgets a c.
Proof. unfold same_widgets. intuition congruence. Qed.

Lemma same_widgets_act (x : Action) (a : App) : same_widgets a (act x a).
Proof. unfold same_widgets. simpl. tauto. Qed.

Lemma boxes_act (x : Action) (a : App) :
  boxes (act x a)
  = boxes a ++ match x with Box d => [d] | _ => [] end.
Proof.
  unfold boxes, act. cbn [actions].
  rewrite flat_map_app. simpl. now rewrite app_nil_r.
Qed.

Lemma lookups_act (x : Action) (a : App) :
  lookups (act x a)
  = lookups a ++ match x with Which t _ => [t] | _ => [] end.
Proof.
  unfold lookups, act. cbn [actions].
  rewrite flat_map_app. simpl. now rewrite app_nil_r.
Qed.

Lemma starts_act (x : Action) (a : App) :
  starts (act x a)
  = starts a ++ match x with ThreadStarted b => [b] | _ => [] end.
Proof.
  unfold starts, act. cbn [actions].
  rewrite flat_map_app. simpl. now rewrite app_nil_r.
Qed.

(** The loop of [check_dependencies]: every tool is looked up, the
    missing ones are collected in order, no widget is touched. *)
Lemma probe_spec (ts : list string) :
  forall (missing : list string) (a : App),
    fst (probe desk ts missing a) = missing ++ filter (is_missing desk) ts
    /\ same_widgets a (snd (probe desk ts missing a))
    /\ boxes (snd (probe desk ts missing a)) = boxes a
    /\ lookups (snd (probe desk ts missing a)) = lookups a ++ ts
    /\ starts (snd (probe desk ts missing a)) = starts a.
Proof.
  induction ts as [|t ts IH]; intros missing a.
  - simpl. rewrite !app_nil_r.
    split; [reflexivity|]. split; [apply same_widgets_refl|].
    repeat split; reflexivity.
  - cbn [probe filter].
    destruct (is_missing desk t);
      match goal with
      | |- context [probe desk ts ?m ?b] =>
          destruct (IH m b) as (H1 & H2 & H3 & H4 & H5)
      end;
      rewrite H1, H3, H4, H5, boxes_act, lookups_act, starts_act; simpl;
      rewrite ?app_nil_r, <- ?app_assoc; simpl;
      (split; [reflexivity|]);
      (split; [eapply same_widgets_trans;
               [apply same_widgets_act | exact H2]|]);
      repeat split; reflexivity.
Qed.

Lemma validate_inputs_facts (a : App) :
  let pdf := pdf_path (inputs a) in
  let out := output_path (inputs a) in
  let ok := fst (validate_inputs desk a) in
  let a' := snd (validate_inputs desk a) in
  (ok = true <-> pdf <> "" /\ out <> "" /\ path_exists desk pdf = true)
  /\ same_widgets a a'
  /\ lookups a' = lookups a
  /\ starts a' = starts a
  /\ boxes a'
     = boxes a
       ++ (if String.eqb pdf "" then
             [ErrorBox "Error" "Please select a PDF file."]
           else if String.eqb out "" then
             [ErrorBox "Error" "Please specify an output file."]
           else if path_exists desk pdf then []
           else [ErrorBox "Error" "The selected PDF file does not exist."]).
Proof.
  cbv zeta. unfold validate_inputs, showerror.
  destruct (String.eqb_spec (pdf_path (inputs a)) "") as [Hp|Hp].
  { cbn [fst snd]. rewrite boxes_act, lookups_act, starts_act, !app_nil_r.
    split; [split; [discriminate | intros (H1 & _); contradiction]|].
    split; [apply same_widgets_act|]. repeat split; reflexivity. }
  destruct (String.eqb_spec (output_path (inputs a)) "") as [Ho|Ho].
  { cbn [fst snd]. rewrite boxes_act, lookups_act, starts_act, !app_nil_r.
    split; [split; [discriminate | intros (_ & H2 & _); contradiction]|].
    split; [apply same_widgets_act|]. repeat split; reflexivity. }
  destruct (path_exists desk (pdf_path (inputs a))) eqn:He;
    cbn [fst snd negb];
    rewrite ?boxes_act, ?lookups_act, ?starts_act, ?app_nil_r.
  - split; [split; [intros _; repeat split; assumption | reflexivity]|].
    split; [apply same_widgets_act|]. repeat split; reflexivity.
  - split; [split; [discriminate | intros (_ & _ & H3); discriminate]|].
    split; [eapply same_widgets_trans; apply same_widgets_act|].
    repeat split; reflexivity.
Qed.

Lemma check_dependencies_facts (a : App) :
  let ok := fst (check_dependencies desk a) in
  let a' := snd (check_dependencies desk a) in
  let missing := filter (is_missing desk) tools in
  (ok = true <-> missing = [])
  /\ same_widgets a a'
  /\ lookups a' = lookups a ++ tools
  /\ starts a' = starts a
  /\ boxes a'
     = boxes a
       ++ match missing with
          | [] => []
          | _ :: _ =>
              [ErrorBox "Missing Dependencies"
                 ("The following tools are required but not installed:"
                  ++ nl ++ String.concat ", " missing ++ nl ++ nl
                  ++ "Please install them using your package manager.")%string]
          end.
Proof.
  cbv zeta. unfold check_dependencies.
  destruct (probe_spec tools [] a) as (H1 & H2 & H3 & H4 & H5).
  destruct (probe desk tools [] a) as [missing a1]. cbn [fst snd] in *.
  rewrite app_nil_l in H1. rewrite <- H1.
  destruct missing as [|m ms]; cbn [fst snd].
  - rewrite H3, H4, H5, app_nil_r.
    split; [tauto|]. split; [exact H2|]. repeat split; reflexivity.
  - unfold showerror.
    rewrite boxes_act, lookups_act, starts_act, H3, H4, H5, !app_nil_r.
    split; [split; discriminate|].
    split; [eapply same_widgets_trans; [exact H2 | apply same_widgets_act]|].
    repeat split; reflexivity.
Qed.

End GuiFacts.

Section GuiAndWorker.

Import Gui.




End GuiAndWorker.

Section StartFacts.

Import Gui.

Variable desk : Desk.

Lemma nothing_missing :
  filter (is_missing desk) tools = []
  <-> which desk "pdftoppm" <> None /\ which desk "tesseract" <> None.
Proof.
  unfold tools. cbn [filter]. unfold is_missing.
  destruct (which desk "pdftoppm"), (which desk "tesseract");
    split; intro H; try discriminate; try reflexivity;
    try (split; discriminate); destruct H as (Ha & Hb); congruence.
Qed.

Lemma one_box_when_invalid (a : App) :
  fst (validate_inputs desk a) = false ->
  exists d, boxes (snd (validate_inputs desk a)) = boxes a ++ [d].
Proof.
  destruct (validate_inputs_facts desk a) as (V1 & _ & _ & _ & V5).
  intro Hno. rewrite V5.
  destruct (String.eqb_spec (pdf_path (inputs a)) "");
    [eexists; reflexivity|].
  destruct (String.eqb_spec (output_path (inputs a)) "");
    [eexists; reflexivity|].
  destruct (path_exists desk (pdf_path (inputs a))) eqn:He;
    [|eexists; reflexivity].
  assert (fst (validate_inputs desk a) = true) by (apply V1; auto).
  congruence.
Qed.

Lemma one_box_when_missing (a : App) :
  fst (check_dependencies desk a) = false ->
  exists d, boxes (snd (check_dependencies desk a)) = boxes a ++ [d].
Proof.
  destruct (check_dependencies_facts desk a) as (D1 & _ & _ & _ & D5).
  intro Hno. rewrite D5.
  destruct (filter (is_missing desk) tools); [|eexists; reflexivity].
  assert (fst (check_dependencies desk a) = true) by now apply D1.
  congruence.
Qed.

Lemma start_processing_facts (a : App) :
  let pdf := pdf_path (inputs a) in
  let out := output_path (inputs a) in
  let started := fst (start_processing desk a) in
  let a' := snd (start_processing desk a) in
  (started = true <->
   pdf <> "" /\ out <> "" /\ path_exists desk pdf = true
   /\ which desk "pdftoppm" <> None /\ which desk "tesseract" <> None)
  /\ (started = false ->
      same_widgets a a' /\ starts a' = starts a
      /\ exists d, boxes a' = boxes a ++ [d])
  /\ (pdf = "" \/ out = "" \/ path_exists desk pdf = false ->
      lookups a' = lookups a)
  /\ (started = true ->
      inputs a' = inputs a
      /\ start_button a' = disabled /\ cancel_button a' = normal
      /\ view_button a' = disabled /\ progress_var a' = 0%Q
      /\ progress_label a' = progress_label a
      /\ status_var a' = status_var a
      /\ log_text a' = [] /\ processing_cancelled a' = false
      /\ pending a' = pending a
      /\ boxes a' = boxes a
      /\ starts a' = starts a ++ [false]
      /\ lookups a' = lookups a ++ tools).
Proof.
  cbv zeta. unfold start_processing.
  destruct (validate_inputs_facts desk a) as (V1 & V2 & V3 & V4 & V5).
  pose proof (one_box_when_invalid a) as V6.
  destruct (validate_inputs desk a) as [valid a1].
  cbn [fst snd] in *.
  destruct valid; cbn [negb fst snd].
  - pose proof (proj1 V1 eq_refl) as (Hp & Ho & He).
    assert (V7 : boxes a1 = boxes a).
    { rewrite V5.
      destruct (String.eqb_spec (pdf_path (inputs a)) ""); [contradiction|].
      destruct (String.eqb_spec (output_path (inputs a)) "");
        [contradiction|].
      rewrite He. apply app_nil_r. }
    destruct (check_dependencies_facts desk a1) as (D1 & D2 & D3 & D4 & D5).
    pose proof (one_box_when_missing a1) as D6.
    destruct (check_dependencies desk a1) as [present a2].
    cbn [fst snd] in *.
    destruct present; cbn [negb fst snd].
    + pose proof (proj1 nothing_missing (proj1 D1 eq_refl)) as (Hw1 & Hw2).
      split; [split; [tauto | reflexivity]|].
      split; [discriminate|].
      split; [intros [H|[H|H]]; congruence|].
      intros _. unfold start_thread.
      rewrite boxes_act, starts_act, lookups_act.
      rewrite D5, (proj1 D1 eq_refl), app_nil_r in *.
      unfold boxes, starts, lookups in *.
      cbn [inputs start_button cancel_button view_button progress_var
           progress_label status_var log_text processing_cancelled pending
           actions act].
      destruct V2 as (E1 & _ & _ & _ & _ & E6 & E7 & _ & _ & E10).
      destruct D2 as (F1 & _ & _ & _ & _ & F6 & F7 & _ & _ & F10).
      rewrite !app_nil_r.
      repeat split; try reflexivity; congruence.
    + split; [split; [discriminate|]|].
      { intros (_ & _ & _ & Hw). apply nothing_missing, D1 in Hw.
        discriminate. }
      split.
      * intros _.
        split; [eapply same_widgets_trans; eassumption|].
        split; [congruence|].
        destruct (D6 eq_refl) as (d & Hd). exists d. now rewrite Hd, V7.
      * split; [intros [H|[H|H]]; congruence | discriminate].
  - split; [split; [discriminate|]|].
    { intros (Hp & Ho & He & _).
      assert (false = true) by (apply V1; auto). discriminate. }
    split; [intros _; split; [exact V2 | split; [exact V4 | exact (V6 eq_refl)]]|].
    split; [intros _; exact V3 | discriminate].
Qed.

End StartFacts.

(** ** The Start button *)

(** X10.  [validate_inputs] accepts exactly when both paths are
    non-empty and the PDF exists.  It never touches a widget, never
    looks up a tool and never starts a thread; when it accepts it
    shows no box, and when it rejects it shows exactly one error box,
    that of the first check that fails: missing PDF path, then missing
    output path, then PDF not found. *)
Theorem validate_inputs_spec (desk : Gui.Desk) (a : Gui.App) :
  let pdf := pdf_path (Gui.inputs a) in
  let out := output_path (Gui.inputs a) in
  let ok := fst (Gui.validate_inputs desk a) in
  let a' := snd (Gui.validate_inputs desk a) in
  (ok = true <->
   pdf <> "" /\ out <> "" /\ Gui.path_exists desk pdf = true)
  /\ Gui.same_widgets a a'
  /\ Gui.lookups a' = Gui.lookups a
  /\ Gui.starts a' = Gui.starts a
  /\ (ok = true -> Gui.boxes a' = Gui.boxes a)
  /\ (pdf = "" ->
      Gui.boxes a'
      = Gui.boxes a ++ [Gui.ErrorBox "Error" "Please select a PDF file."])
  /\ (pdf <> "" -> out = "" ->
      Gui.boxes a'
      = Gui.boxes a
        ++ [Gui.ErrorBox "Error" "Please specify an output file."])
  /\ (pdf <> "" -> out <> "" -> Gui.path_exists desk pdf = false ->
      Gui.boxes a'
      = Gui.boxes a
        ++ [Gui.ErrorBox "Error" "The selected PDF file does not exist."]).
Proof.
  cbv zeta.
  destruct (validate_inputs_facts desk a) as (H1 & H2 & H3 & H4 & H5).
  split; [exact H1|]. split; [exact H2|]. split; [exact H3|].
  split; [exact H4|]. rewrite H5.
  split; [|split; [|split]].
  - intro Hok. apply H1 in Hok. destruct Hok as (Hp & Ho & He).
    destruct (String.eqb_spec (pdf_path (Gui.inputs a)) "");
      [contradiction|].
    destruct (String.eqb_spec (output_path (Gui.inputs a)) "");
      [contradiction|].
    rewrite He. apply app_nil_r.
  - intro Hp. rewrite Hp. reflexivity.
  - intros Hp Ho.
    destruct (String.eqb_spec (pdf_path (Gui.inputs a)) "");
      [contradiction|].
    rewrite Ho. reflexivity.
  - intros Hp Ho He.
    destruct (String.eqb_spec (pdf_path (Gui.inputs a)) "");
      [contradiction|].
    destruct (String.eqb_spec (output_path (Gui.inputs a)) "");
      [contradiction|].
    rewrite He. reflexivity.
Qed.

(** X11.  [check_dependencies] accepts exactly when both [pdftoppm]
    and [tesseract] are found.  Both tools are always looked up, in
    that order, whatever the first lookup gives; no widget is touched;
    and when a tool is missing exactly one error box is shown, which
    lists the missing tools in that order, separated by ", ". *)
Theorem check_dependencies_spec (desk : Gui.Desk) (a : Gui.App) :
  let ok := fst (Gui.check_dependencies desk a) in
  let a' := snd (Gui.check_dependencies desk a) in
  let missing := filter (Gui.is_missing desk) ["pdftoppm"; "tesseract"] in
  (ok = true <->
   Gui.which desk "pdftoppm" <> None /\ Gui.which desk "tesseract" <> None)
  /\ Gui.same_widgets a a'
  /\ Gui.lookups a' = Gui.lookups a ++ ["pdftoppm"; "tesseract"]
  /\ (ok = true -> Gui.boxes a' = Gui.boxes a)
  /\ (ok = false ->
      Gui.boxes a'
      = Gui.boxes a
        ++ [Gui.ErrorBox "Missing Dependencies"
              ("The following tools are required but not installed:"
               ++ nl ++ String.concat ", " missing ++ nl ++ nl
               ++ "Please install them using your package manager.")%string]).
Proof.
  cbv zeta.
  destruct (check_dependencies_facts desk a) as (H1 & H2 & H3 & _ & H4).
  pose proof (nothing_missing desk) as Hmiss.
  unfold Gui.tools in *.
  split; [rewrite H1; exact Hmiss|].
  split; [exact H2|]. split; [exact H3|].
  split; intro Hok; rewrite H4.
  - apply H1 in Hok. rewrite Hok. apply app_nil_r.
  - destruct (filter (Gui.is_missing desk) ["pdftoppm"; "tesseract"]);
      [|reflexivity].
    assert (fst (Gui.check_dependencies desk a) = true) by now apply H1.
    congruence.
Qed.

(** X12.  A click on Start starts the worker thread exactly when both
    paths are given, the PDF exists and both tools are found.
    Otherwise no widget, variable or flag changes, no thread is
    started and exactly one error box is shown; when it is the
    validation that fails, the tools are not even looked up. *)
Theorem start_processing_gate (desk : Gui.Desk) (a : Gui.App) :
  let pdf := pdf_path (Gui.inputs a) in
  let out := output_path (Gui.inputs a) in
  let started := fst (Gui.start_processing desk a) in
  let a' := snd (Gui.start_processing desk a) in
  (started = true <->
   pdf <> "" /\ out <> "" /\ Gui.path_exists desk pdf = true
   /\ Gui.which desk "pdftoppm" <> None
   /\ Gui.which desk "tesseract" <> None)
  /\ (started = false ->
      Gui.same_widgets a a' /\ Gui.starts a' = Gui.starts a
      /\ exists d, Gui.boxes a' = Gui.boxes a ++ [d])
  /\ (pdf = "" \/ out = "" \/ Gui.path_exists desk pdf = false ->
      Gui.lookups a' = Gui.lookups a).
Proof.
  cbv zeta.
  destruct (start_processing_facts desk a) as (H1 & H2 & H3 & _).
  auto.
Qed.

(** X13.  When a click on Start starts the worker, it does so with the
    cancellation flag cleared, whatever the flag was before (a flag
    left set by an earlier Cancel does not reach the new job); the log
    is emptied, the progress bar is at 0, Start and View are disabled
    and Cancel is enabled; the inputs are unchanged and no box is
    shown. *)
Theorem start_processing_effect (desk : Gui.Desk) (a : Gui.App) :
  let a' := snd (Gui.start_processing desk a) in
  fst (Gui.start_processing desk a) = true ->
  Gui.starts a' = Gui.starts a ++ [false]
  /\ Gui.processing_cancelled a' = false
  /\ Gui.log_text a' = []
  /\ Gui.progress_var a' = 0%Q
  /\ Gui.start_button a' = Gui.disabled
  /\ Gui.cancel_button a' = Gui.normal
  /\ Gui.view_button a' = Gui.disabled
  /\ Gui.inputs a' = Gui.inputs a
  /\ Gui.boxes a' = Gui.boxes a.
Proof.
  cbv zeta. intro Hs.
  destruct (start_processing_facts desk a) as (_ & _ & _ & H).
  destruct (H Hs) as (? & ? & ? & ? & ? & ? & ? & ? & ? & ? & ? & ? & ?).
  repeat split; assumption.
Qed.

Lemma start_processing_effect_witness :
  Gui.processing_cancelled
    (snd (Gui.start_processing (Gui.sample_desk true true)
            (Gui.cancel_processing (Gui.fresh "doc.pdf" "out.txt"))))
  = false.
Proof.
  apply (start_processing_effect (Gui.sample_desk true true)
           (Gui.cancel_processing (Gui.fresh "doc.pdf" "out.txt"))).
  reflexivity.
Defined.

(** ** The widgets at the end of a job *)

Section JobEnd.

Import Gui.


End JobEnd.





(** ** Which directory entries are page images *)

Lemma length_append (a b : string) :
  String.length (a ++ b) = String.length a + String.length b.
Proof. induction a as [|c a IH]; simpl; [reflexivity | now rewrite IH]. Qed.

Lemma substring_whole (t : string) : substring 0 (String.length t) t = t.
Proof. induction t as [|c t IH]; simpl; [reflexivity | now rewrite IH]. Qed.

Lemma substring_skip (p t : string) (m : nat) :
  substring (String.length p) m (p ++ t) = substring 0 m t.
Proof. induction p as [|c p IH]; simpl; [reflexivity | exact IH]. Qed.

Lemma substring_split (s : string) :
  forall k, k <= String.length s ->
            s = (substring 0 k s ++ substring k (String.length s - k) s)%string.
Proof.
  induction s as [|c s IH]; intros [|k] Hk; simpl in *; try lia.
  - reflexivity.
  - now rewrite substring_whole.
  - rewrite <- IH by lia. reflexivity.
Qed.

Lemma endswith_spec (s suffix : string) :
  Py.endswith s suffix = true <-> exists p, s = (p ++ suffix)%string.
Proof.
  unfold Py.endswith. split.
  - intro H. apply andb_true_iff in H. destruct H as [Hlen Heq].
    apply Nat.leb_le in Hlen. apply String.eqb_eq in Heq.
    exists (substring 0 (String.length s - String.length suffix) s).
    etransitivity;
      [apply (substring_split s (String.length s - String.length suffix));
       lia|].
    f_equal.
    replace (String.length s - (String.length s - String.length suffix))
      with (String.length suffix) by lia.
    exact Heq.
  - intros [p ->]. rewrite length_append.
    apply andb_true_iff. split; [apply Nat.leb_le; lia|].
    replace (String.length p + String.length suffix - String.length suffix)
      with (String.length p) by lia.
    rewrite substring_skip, substring_whole. apply String.eqb_refl.
Qed.

(** X16.  A directory entry is taken as a page image exactly when its
    name is some text, possibly empty, followed by the four characters
    [.png]; so the number of pages of a job is the number of such
    entries, whatever else the rasterizer or anyone else left in the
    directory. *)
Theorem page_images_are_png_names (w : World) (f : string) :
  (is_png f = true <-> exists stem, f = (stem ++ ".png")%string)
  /\ (In f (image_files w) <->
      In f (raster_output w) /\ exists stem, f = (stem ++ ".png")%string)
  /\ total_pages w = List.length (filter is_png (raster_output w)).
Proof.
  assert (Hpng : is_png f = true <-> exists stem, f = (stem ++ ".png")%string)
    by apply endswith_spec.
  assert (Hperm : Permutation (image_files w)
                    (filter is_png (raster_output w)))
    by apply sorted_perm.
  split; [exact Hpng|]. split.
  - rewrite <- Hpng, <- filter_In. split; intro H.
    + eapply Permutation_in; [exact Hperm | exact H].
    + eapply Permutation_in; [symmetry; exact Hperm | exact H].
  - unfold total_pages. now apply Permutation_length.
Qed.

(** * The notebook scanners *)

Section Substrings.

Lemma prefix_spec (t s : string) :
  String.prefix t s = true <-> exists b, s = (t ++ b)%string.
Proof.
  revert s. induction t as [|c t IH]; intro s.
  - destruct s; simpl; split; eauto.
  - destruct s as [|c' s]; simpl.
    + split; [discriminate | intros [b Hb]; discriminate].
    + destruct (ascii_dec c c') as [->|Hne].
      * rewrite IH. split; intros [b Hb]; exists b; congruence.
      * split; [discriminate | intros [b Hb]; congruence].
Qed.

(** [t in s] says that [t] occurs somewhere in [s]. *)
Lemma contains_spec (t s : string) :
  Nb.contains t s = true <-> exists a b, s = (a ++ t ++ b)%string.
Proof.
  induction s as [|c s IH].
  - cbn [Nb.contains]. rewrite orb_false_r, prefix_spec. split.
    + intros [b Hb]. exists "", b. exact Hb.
    + intros (a & b & H). destruct a; [eauto|discriminate].
  - cbn [Nb.contains]. rewrite orb_true_iff, prefix_spec, IH. split.
    + intros [[b Hb]|(a & b & H)].
      * exists "", b. exact Hb.
      * exists (String c a), b. simpl. now rewrite H.
    + intros (a & b & H). destruct a as [|c' a].
      * left. exists b. exact H.
      * right. exists a, b. simpl in H. congruence.
Qed.

End Substrings.

Section CellSearch.

Import Nb.

Variable target : string.

Lemma join_strs_ok (l : list Json) :
  lines_ok l -> join_strs l = Ok (concat_strs l).
Proof.
  induction 1 as [|v l [s ->] _ IH]; [reflexivity|].
  cbn [join_strs concat_strs]. rewrite IH. reflexivity.
Qed.

(** One step of the loop on a well-formed cell. *)
Lemma match_from_step (idx : nat) (cell : Json) (rest : list Json) :
  well_formed cell ->
  match_from target idx (cell :: rest)
  = if mentions target cell then Ok (true, Z.of_nat idx)
    else match_from target (S idx) rest.
Proof.
  intros (d & -> & Hsrc).
  cbn [match_from py_in Nb.bind]. unfold has_key, mentions, cell_text.
  unfold source_text. cbn [subscript].
  destruct (lookup "source" d) as [src|]; [|reflexivity].
  cbn [Nb.bind].
  destruct src as [| | |s|l|]; try contradiction.
  - reflexivity.
  - rewrite (join_strs_ok l Hsrc). reflexivity.
Qed.

Lemma match_from_none (cells : list Json) :
  forall idx,
    Forall well_formed cells ->
    Forall (fun c => mentions target c = false) cells ->
    match_from target idx cells = Ok (false, (-1)%Z).
Proof.
  induction cells as [|c cells IH]; intros idx Hwf Hno; [reflexivity|].
  inversion Hwf; inversion Hno; subst.
  rewrite match_from_step by assumption.
  rewrite H5. now apply IH.
Qed.

Lemma match_from_first (pre : list Json) :
  forall idx i c post,
    Forall well_formed pre ->
    nth_error pre i = Some c ->
    mentions target c = true ->
    (forall j c', j < i -> nth_error pre j = Some c' ->
                  mentions target c' = false) ->
    match_from target idx (pre ++ post) = Ok (true, Z.of_nat (idx + i)).
Proof.
  induction pre as [|p pre IH]; intros idx i c post Hwf Hi Hc Hbefore.
  - destruct i; discriminate.
  - inversion Hwf; subst. cbn [app].
    rewrite match_from_step by assumption.
    destruct i as [|i].
    + injection Hi as ->. rewrite Hc, Nat.add_0_r. reflexivity.
    + rewrite (Hbefore 0 p) by (simpl; (lia || reflexivity)).
      rewrite (IH (S idx) i c post); trivial.
      * do 3 f_equal. lia.
      * intros j c' Hj Hn. apply (Hbefore (S j) c'); [lia | exact Hn].
Qed.

Lemma match_from_opaque (pre : list Json) :
  forall idx bad post,
    Forall well_formed pre ->
    Forall (fun c => mentions target c = false) pre ->
    opaque_cell bad = true ->
    match_from target idx (pre ++ bad :: post) = Raise TypeError.
Proof.
  induction pre as [|p pre IH]; intros idx bad post Hwf Hno Hbad.
  - destruct bad; try discriminate; reflexivity.
  - inversion Hwf; inversion Hno; subst. cbn [app].
    rewrite match_from_step by assumption.
    rewrite H5. now apply IH.
Qed.

End CellSearch.

(** ** [check_cells_for_match] *)

(** X17.  On a notebook whose cells are well formed (dicts whose
    source, if present, is a string or a list of strings)
    [check_cells_for_match] never raises: it returns [(False, -1)]
    when no cell mentions the target and [(True, i)] for the first
    cell [i] that does.  A cell mentions the target when the target
    occurs in its source text, the lines of a list source being joined
    without separator first (so an occurrence may span two lines);
    cells without a source are passed over. *)
Theorem check_cells_first_match (target : string) (cells : list Nb.Json) :
  Forall Nb.well_formed cells ->
  (Forall (fun c => Nb.mentions target c = false) cells ->
   Nb.check_cells_for_match target (Nb.JList cells)
   = Nb.Ok (false, (-1)%Z))
  /\ (forall i c,
        nth_error cells i = Some c ->
        Nb.mentions target c = true ->
        (forall j c', j < i -> nth_error cells j = Some c' ->
                      Nb.mentions target c' = false) ->
        Nb.check_cells_for_match target (Nb.JList cells)
        = Nb.Ok (true, Z.of_nat i))
  /\ (forall c,
        Nb.mentions target c = true <->
        exists text a b,
          Nb.cell_text c = Some text /\ text = (a ++ target ++ b)%string).
Proof.
  intro Hwf. split; [|split].
  - intro Hno. now apply match_from_none.
  - intros i c Hi Hc Hfirst.
    unfold Nb.check_cells_for_match. cbn [Nb.iterate Nb.bind].
    rewrite <- (app_nil_r cells).
    now rewrite (match_from_first target cells 0 i c []).
  - intro c. unfold Nb.mentions.
    destruct (Nb.cell_text c) as [text|].
    + rewrite contains_spec. split.
      * intros (a & b & H). now exists text, a, b.
      * intros (t & a & b & Ht & H). injection Ht as <-. now exists a, b.
    + split; [discriminate | intros (t & _ & _ & Ht & _); discriminate].
Qed.

Lemma check_cells_first_match_witness :
  Nb.check_cells_for_match "pollinations.ai"
    (Nb.JList
       [Nb.JDict [("cell_type", Nb.JStr "markdown")];
        Nb.JDict [("source",
                   Nb.JList [Nb.JStr "https://image.pollina";
                             Nb.JStr "tions.ai/x"])]])
  = Nb.Ok (true, 1%Z).
Proof.
  assert (Hwf : Forall Nb.well_formed
                  [Nb.JDict [("cell_type", Nb.JStr "markdown")];
                   Nb.JDict [("source",
                              Nb.JList [Nb.JStr "https://image.pollina";
                                        Nb.JStr "tions.ai/x"])]]).
  { constructor; [|constructor; [|constructor]].
    - eexists. split; [reflexivity|]. exact I.
    - eexists. split; [reflexivity|].
      repeat constructor; eexists; reflexivity. }
  apply (proj1 (proj2 (check_cells_first_match "pollinations.ai" _ Hwf))
           1 _ eq_refl eq_refl).
  intros [|[|j]] c' Hj Hc'; try lia. injection Hc' as <-. reflexivity.
Defined.

(** X18.  The search stops at the first match: once a well-formed
    cell that mentions the target is reached, the result is its index
    whatever follows it, even cells Python could not inspect. *)
Theorem check_cells_stops_at_first_match
        (target : string) (pre post : list Nb.Json) (i : nat) (c : Nb.Json) :
  Forall Nb.well_formed pre ->
  nth_error pre i = Some c ->
  Nb.mentions target c = true ->
  (forall j c', j < i -> nth_error pre j = Some c' ->
                Nb.mentions target c' = false) ->
  Nb.check_cells_for_match target (Nb.JList (pre ++ post))
  = Nb.Ok (true, Z.of_nat i).
Proof.
  intros Hwf Hi Hc Hfirst.
  unfold Nb.check_cells_for_match. cbn [Nb.iterate Nb.bind].
  now rewrite (match_from_first target pre 0 i c post).
Qed.

Lemma check_cells_stops_at_first_match_witness :
  Nb.check_cells_for_match "pollinations.ai"
    (Nb.JList ([Nb.JDict [("source", Nb.JStr "see pollinations.ai")]]
               ++ [Nb.JNull; Nb.JNum "3"]))
  = Nb.Ok (true, 0%Z).
Proof.
  apply (check_cells_stops_at_first_match "pollinations.ai"
           [Nb.JDict [("source", Nb.JStr "see pollinations.ai")]]
           [Nb.JNull; Nb.JNum "3"] 0
           (Nb.JDict [("source", Nb.JStr "see pollinations.ai")])).
  - repeat constructor. eexists. split; [reflexivity|]. simpl. trivial.
  - reflexivity.
  - reflexivity.
  - intros j c' Hj. lia.
Defined.

(** X19.  A cell that is no container (null, a boolean or a number)
    makes the search raise [TypeError] when it is reached, that is,
    when the well-formed cells before it do not mention the target:
    the notebook is then reported as an error, not as a skip. *)
Theorem check_cells_raises_on_opaque_cell
        (target : string) (pre post : list Nb.Json) (bad : Nb.Json) :
  Forall Nb.well_formed pre ->
  Forall (fun c => Nb.mentions target c = false) pre ->
  Nb.opaque_cell bad = true ->
  Nb.check_cells_for_match target (Nb.JList (pre ++ bad :: post))
  = Nb.Raise Nb.TypeError.
Proof.
  intros Hwf Hno Hbad.
  unfold Nb.check_cells_for_match. cbn [Nb.iterate Nb.bind].
  now apply match_from_opaque.
Qed.

Lemma check_cells_raises_on_opaque_cell_witness :
  Nb.check_cells_for_match "pollinations.ai"
    (Nb.JList ([Nb.JDict [("source", Nb.JStr "print(1)")]]
               ++ Nb.JNull
                  :: [Nb.JDict [("source", Nb.JStr "pollinations.ai")]]))
  = Nb.Raise Nb.TypeError.
Proof.
  apply check_cells_raises_on_opaque_cell.
  - repeat constructor. eexists. split; [reflexivity|]. simpl. trivial.
  - repeat constructor.
  - reflexivity.
Defined.

(** X20.  With a single target, the search of [print_where_find.py]
    is that of [search_jupyter_nb.py], on every JSON value: it raises
    when the other raises, and otherwise returns the same flag and
    index, together with the target when there is a match. *)
Theorem searches_agree_on_one_target (target : string) (cells : Nb.Json) :
  Nb.check_cells_for_any [target] cells
  = Nb.bind (Nb.check_cells_for_match target cells)
      (fun r => Nb.Ok (fst r, snd r,
                       if fst r then Some target else None)).
Proof.
  unfold Nb.check_cells_for_any, Nb.check_cells_for_match.
  destruct (Nb.iterate cells) as [l|e]; cbn [Nb.bind]; [|reflexivity].
  generalize 0. induction l as [|c l IH]; intro idx; [reflexivity|].
  cbn [Nb.match_any_from Nb.match_from].
  destruct (Nb.py_in "source" c) as [[|]|e]; cbn [Nb.bind]; trivial.
  destruct (Nb.source_text c) as [text|e]; cbn [Nb.bind]; trivial.
  cbn [Nb.first_target].
  destruct (Nb.py_in target text) as [[|]|e]; cbn [Nb.bind]; trivial.
Qed.

(** ** [scan_ipynbs] *)

Section ScanFacts.

Import Nb.

Variable disk : Disk.

Lemma scan_file_cases (st : Scan) (p : string) :
  (exists e,
      (scan_attempt disk p = Raise e
       \/ exists idx, scan_attempt disk p = Ok (true, idx)
                      /\ copy2 disk p (dest_of disk (drawn st) p) = Some e)
      /\ scan_file disk st p
         = mkScan (S (count_total st)) (count_matched st)
                  (printed st ++ [Errored p e]) (copied st)
                  (if hit disk p then S (drawn st) else drawn st))
  \/ (exists idx,
         scan_attempt disk p = Ok (false, idx)
         /\ scan_file disk st p
            = mkScan (S (count_total st)) (count_matched st)
                     (printed st ++ [Skipped p]) (copied st) (drawn st))
  \/ (exists idx,
         scan_attempt disk p = Ok (true, idx)
         /\ copy2 disk p (dest_of disk (drawn st) p) = None
         /\ scan_file disk st p
            = mkScan (S (count_total st)) (S (count_matched st))
                     (printed st
                      ++ [Matched p idx
                                  (path_name (dest_of disk (drawn st) p))])
                     (copied st ++ [(p, dest_of disk (drawn st) p)])
                     (S (drawn st))).
Proof.
  unfold scan_file, hit, scan_attempt, dest_of.
  destruct (bind (load disk p) _) as [[[|] idx]|e].
  - destruct (copy2 disk p _) as [e|] eqn:Ec.
    + left. exists e. split; [right; now exists idx | reflexivity].
    + right. right. exists idx. now repeat split.
  - right. left. now exists idx.
  - left. exists e. split; [now left | reflexivity].
Qed.

Lemma scan_fold_grows (files : list string) : forall st,
    Grows disk files st (fold_left (scan_file disk) files st).
Proof.
  induction files as [|p files IH]; intro st.
  - cbn [fold_left]. split.
    + cbn [List.length]. lia.
    + exists []. rewrite app_nil_r. cbn.
      repeat split; try lia; try (intros ? ? []).
    + exists []. rewrite app_nil_r. cbn.
      repeat split; try lia; try (intros ? ? []).
    + cbn [List.length]. lia.
  - cbn [fold_left].
    destruct (IH (scan_file disk st p))
      as [Ht (body & Hp & Hb & Hm & He) (new & Hc & Hn & Hin & Hall) Hd].
    destruct (scan_file_cases st p)
      as [(e & Hwhy & E) | [(idx & Ha & E) | (idx & Ha & Hcp & E)]];
      rewrite E in *; cbn [count_total count_matched printed copied drawn]
        in *.
    + assert (Hdr : drawn st
                    <= (if hit disk p then S (drawn st) else drawn st)
                    <= S (drawn st))
        by (destruct (hit disk p); lia).
      split.
      * cbn [List.length]. lia.
      * exists (Errored p e :: body). rewrite Hp, <- app_assoc.
        cbn [app map line_path filter is_matched].
        split; [reflexivity|]. split; [now rewrite Hb|].
        split; [exact Hm|].
        intros q e' [Heq | Hq]; [|now apply He].
        injection Heq as <- <-.
        destruct Hwhy as [Hr | (idx & Ha & Hcp)]; [now left|].
        right. split; [unfold hit; now rewrite Ha | eauto].
      * exists new. split; [exact Hc|]. split; [exact Hn|]. split.
        -- intros src dest H.
           destruct (Hin _ _ H) as (H1 & H2 & H3 & k & Hk & Hdest).
           split; [now right|]. split; [exact H2|]. split; [exact H3|].
           exists k. split; [lia | exact Hdest].
        -- intro Hok. cbn [filter].
           destruct Hwhy as [Hr | (idx & Ha & Hcp)].
           ++ unfold hit at 1. rewrite Hr. now apply Hall.
           ++ now rewrite Hok in Hcp.
      * cbn [List.length]. lia.
    + split.
      * cbn [List.length]. lia.
      * exists (Skipped p :: body). rewrite Hp, <- app_assoc.
        cbn [app map line_path filter is_matched].
        split; [reflexivity|]. split; [now rewrite Hb|].
        split; [exact Hm|].
        intros q e' [Heq | Hq]; [discriminate | now apply He].
      * exists new. split; [exact Hc|]. split; [exact Hn|]. split.
        -- intros src dest H.
           destruct (Hin _ _ H) as (H1 & H2 & H3 & k & Hk & Hdest).
           split; [now right|]. split; [exact H2|]. split; [exact H3|].
           exists k. split; [lia | exact Hdest].
        -- intro Hok. cbn [filter]. unfold hit at 1. rewrite Ha.
           now apply Hall.
      * cbn [List.length]. lia.
    + split.
      * cbn [List.length]. lia.
      * exists (Matched p idx (path_name (dest_of disk (drawn st) p))
                        :: body).
        rewrite Hp, <- app_assoc.
        cbn [app map line_path filter is_matched List.length].
        split; [reflexivity|]. split; [now rewrite Hb|].
        split; [lia|].
        intros q e' [Heq | Hq]; [discriminate | now apply He].
      * exists ((p, dest_of disk (drawn st) p) :: new).
        rewrite Hc, <- app_assoc. cbn [app List.length].
        split; [reflexivity|]. split; [lia|]. split.
        -- intros src dest [Heq | H].
           ++ injection Heq as <- <-.
              split; [now left|]. split; [unfold hit; now rewrite Ha|].
              split; [exact Hcp|].
              exists (drawn st). split; [lia | reflexivity].
           ++ destruct (Hin _ _ H) as (H1 & H2 & H3 & k & Hk & Hdest).
              split; [now right|]. split; [exact H2|]. split; [exact H3|].
              exists k. split; [lia | exact Hdest].
        -- intro Hok. cbn [filter map fst]. unfold hit at 1. rewrite Ha.
           f_equal. now apply Hall.
      * cbn [List.length]. lia.
Qed.


Lemma hit_spec (p : string) :
  hit disk p = true <->
  exists data cells idx,
    load disk p = Ok data /\ get_cells data = Ok cells
    /\ check_cells_for_match TARGET_SUBSTRING cells = Ok (true, idx).
Proof.
  unfold hit, scan_attempt. split.
  - destruct (load disk p) as [data|e]; cbn [bind]; [|discriminate].
    destruct (get_cells data) as [cells|e] eqn:Hg; cbn [bind];
      [|discriminate].
    destruct (check_cells_for_match _ cells) as [[[|] idx]|e] eqn:Hm;
      try discriminate.
    intros _. now exists data, cells, idx.
  - intros (data & cells & idx & -> & H1 & H2). cbn [bind].
    rewrite H1. cbn [bind]. now rewrite H2.
Qed.





End ScanFacts.


(** X22.  Only matching notebooks are copied.  Every copy that a scan
    makes is of a file that [rglob] yielded, that loaded as JSON and of
    which some cell contains the target; the copy succeeded, and its
    destination is the output directory, a fresh identifier, an
    underscore and the name of the source file. *)
Theorem copies_only_of_matches
        (disk : Nb.Disk) (root src dest : string) :
  In (src, dest) (Nb.copied (Nb.scan_ipynbs disk root)) ->
  In src (Nb.found disk)
  /\ (exists data cells idx,
         Nb.load disk src = Nb.Ok data
         /\ Nb.get_cells data = Nb.Ok cells
         /\ Nb.check_cells_for_match Nb.TARGET_SUBSTRING cells
            = Nb.Ok (true, idx))
  /\ Nb.copy2 disk src dest = None
  /\ exists k,
      k < List.length (Nb.found disk)
      /\ dest = (Nb.OUTPUT_DIR ++ "/" ++ Nb.uuid_hex disk k ++ "_"
                 ++ Nb.path_name src)%string.
Proof.
  unfold Nb.scan_ipynbs. cbn [Nb.copied].
  destruct (scan_fold_grows disk (Nb.found disk)
              (Nb.mkScan 0 0 [Nb.Scanning root] [] 0))
    as [_ _ (new & Hc & _ & Hin & _) Hd].
  cbn [Nb.copied Nb.drawn] in *. rewrite Hc, app_nil_l.
  intro H. destruct (Hin _ _ H) as (H1 & H2 & H3 & k & Hk & Hdest).
  split; [exact H1|]. split; [now apply hit_spec|]. split; [exact H3|].
  exists k. split; [lia | exact Hdest].
Qed.

Lemma copies_only_of_matches_witness :
  In "nb/a.ipynb" (Nb.found Nb.sample_disk)
  /\ (exists data cells idx,
         Nb.load Nb.sample_disk "nb/a.ipynb" = Nb.Ok data
         /\ Nb.get_cells data = Nb.Ok cells
         /\ Nb.check_cells_for_match Nb.TARGET_SUBSTRING cells
            = Nb.Ok (true, idx))
  /\ Nb.copy2 Nb.sample_disk "nb/a.ipynb" "matched_notebooks/0f_a.ipynb"
     = None
  /\ exists k,
      k < List.length (Nb.found Nb.sample_disk)
      /\ "matched_notebooks/0f_a.ipynb"
         = (Nb.OUTPUT_DIR ++ "/" ++ Nb.uuid_hex Nb.sample_disk k ++ "_"
            ++ Nb.path_name "nb/a.ipynb")%string.
Proof.
  apply (copies_only_of_matches Nb.sample_disk "nb").
  vm_compute. left. reflexivity.
Defined.






(** ** Several targets *)

Section SeveralTargets.

Import Nb.

Variable targets : list string.

Lemma first_target_str (s : string) :
  first_target targets (JStr s)
  = Ok (find (fun t => contains t s) targets).
Proof.
  induction targets as [|t ts IH]; [reflexivity|].
  cbn [first_target py_in Nb.bind find].
  destruct (contains t s); [reflexivity | exact IH].
Qed.

Lemma match_any_from_step (idx : nat) (cell : Json) (rest : list Json) :
  well_formed cell ->
  match_any_from targets idx (cell :: rest)
  = match first_mentioned targets cell with
    | Some t => Ok (true, Z.of_nat idx, Some t)
    | None => match_any_from targets (S idx) rest
    end.
Proof.
  intros (d & -> & Hsrc).
  cbn [match_any_from py_in Nb.bind].
  unfold has_key, first_mentioned, mentions, cell_text.
  unfold source_text. cbn [subscript].
  destruct (lookup "source" d) as [src|].
  - cbn [Nb.bind].
    destruct src as [| | |s|l|]; try contradiction.
    + cbn [Nb.bind]. rewrite first_target_str. reflexivity.
    + rewrite (join_strs_ok l Hsrc). cbn [Nb.bind].
      rewrite first_target_str. reflexivity.
  - replace (find (fun _ : string => false) targets) with (@None string);
      [reflexivity|].
    clear. induction targets as [|t ts IH]; [reflexivity | exact IH].
Qed.

Lemma match_any_from_first (pre : list Json) :
  forall idx c t post,
    Forall well_formed pre -> well_formed c ->
    Forall (fun c' => first_mentioned targets c' = None) pre ->
    first_mentioned targets c = Some t ->
    match_any_from targets idx (pre ++ c :: post)
    = Ok (true, Z.of_nat (idx + List.length pre), Some t).
Proof.
  induction pre as [|p pre IH]; intros idx c t post Hwf Hc Hno Ht.
  - cbn [app List.length]. rewrite match_any_from_step by assumption.
    now rewrite Ht, Nat.add_0_r.
  - inversion Hwf; inversion Hno; subst. cbn [app List.length].
    rewrite match_any_from_step by assumption.
    rewrite H5. rewrite (IH (S idx) c t post) by assumption.
    do 3 f_equal. lia.
Qed.

End SeveralTargets.

(** X26.  With several targets, the search of [print_where_find.py]
    stops at the first well-formed cell that mentions any of them and
    reports, with the index of that cell, the first target in the order
    of the list that the cell mentions (not the one that occurs first
    in its text); the cells after it are not inspected. *)
Theorem first_cell_then_first_target
        (targets : list string) (pre post : list Nb.Json)
        (c : Nb.Json) (t : string) :
  Forall Nb.well_formed pre ->
  Nb.well_formed c ->
  Forall (fun c' => first_mentioned targets c' = None) pre ->
  first_mentioned targets c = Some t ->
  Nb.check_cells_for_any targets (Nb.JList (pre ++ c :: post))
  = Nb.Ok (true, Z.of_nat (List.length pre), Some t).
Proof.
  intros Hwf Hc Hno Ht.
  unfold Nb.check_cells_for_any. cbn [Nb.iterate Nb.bind].
  now rewrite (match_any_from_first targets pre 0 c t post).
Qed.

Lemma first_cell_then_first_target_witness :
  Nb.check_cells_for_any ["b.example"; "a.example"]
    (Nb.JList ([Nb.JDict [("source", Nb.JStr "nothing here")]]
               ++ Nb.JDict [("source",
                             Nb.JList [Nb.JStr "a.example and ";
                                       Nb.JStr "b.example"])]
                  :: [Nb.JNull]))
  = Nb.Ok (true, 1%Z, Some "b.example").
Proof.
  apply (first_cell_then_first_target ["b.example"; "a.example"]
           [Nb.JDict [("source", Nb.JStr "nothing here")]] [Nb.JNull]).
  - constructor; [|constructor].
    eexists. split; [reflexivity|]. exact I.
  - eexists. split; [reflexivity|].
    repeat constructor; eexists; reflexivity.
  - repeat constructor.
  - reflexivity.
Defined.
